(** * SAP / BTP tool-calling adapter: a shallow embedding and its properties

    The development follows the four source files of the repository:

    - [src/utils/config.js]      -> [Module Config]
    - [src/services/sap-service.js] (class [SAPService]) -> [Module SAPService]
    - [src/server/mcp-server.js] (class [SAPMCPServer]) -> [Module SAPMCPServer]
    - the HTTP variant with [BTPDestinationService] and the tools
      [list_destinations] and [query_northwind] -> [Module BTP], its
      liveness endpoint -> [Module Endpoints]
    - mcp-client.js (class [MCPClient]) -> [Module MCPClient]

    JavaScript values are an inductive type, [async] functions are
    computations in a monad that reads the network (an oracle answering
    every HTTP request), appends each request to a trace and either
    completes normally or throws.  Console output is not modelled and no
    property below is about the log; where an argument of a logging call
    can throw (the client's list of model names), its evaluation is part
    of the model.

    Numbers are modelled by [Z] and stand for the safe integers of
    JavaScript (absolute value at most 2^53 - 1), which a double holds
    exactly.  On them, and as long as the result is one of them, [+] and
    the number-to-string conversion agree with [Z.add] and the decimal
    numeral; beyond them the engine rounds sums and prints rounded or
    exponent forms, so a statement about a printed or added number
    carries this bound. *)

From Stdlib Require Import ZArith List String Ascii Bool Lia.
From Stdlib Require Import DecimalString DecimalZ DecimalPos.
Import ListNotations.
Set Warnings "-register-all".
Open Scope string_scope.
Open Scope Z_scope.

(** ** JavaScript values and the operators the program applies to them *)

Module JS.

Inductive value : Type :=
| VUndefined
| VNull
| VBool (b : bool)
| VNum (n : Z)
| VStr (s : string)
| VArr (xs : list value)
| VObj (props : list (string * value)).

(** What a [throw] carries.  Every thrown value of the program is an
    [Error] object (or the [TypeError] the engine raises) and only its
    [message] is ever read. *)
Inductive exn : Type :=
| Error (msg : string)
| TypeError (msg : string).

Definition message (e : exn) : string :=
  match e with Error m => m | TypeError m => m end.

(** Result of evaluating an expression or a synchronous block. *)
Inductive completion (A : Type) : Type :=
| Normal (a : A)
| Throw (e : exn).
Arguments Normal {A} a.
Arguments Throw {A} e.

Definition cbind {A B} (c : completion A) (k : A -> completion B) : completion B :=
  match c with Normal a => k a | Throw e => Throw e end.

Notation "x <~ c ;; k" := (cbind c (fun x => k))
  (at level 61, c at next level, right associativity).

Fixpoint cmap {A B} (f : A -> completion B) (l : list A) : completion (list B) :=
  match l with
  | [] => Normal []
  | x :: r => y <~ f x ;; ys <~ cmap f r ;; Normal (y :: ys)
  end.

(** [Number.prototype.toString] on a safe integer. *)
Definition Number_toString (n : Z) : string :=
  NilZero.string_of_int (Z.to_int n).

Definition nullish (v : value) : bool :=
  match v with VUndefined | VNull => true | _ => false end.

(** ToBoolean. *)
Definition truthy (v : value) : bool :=
  match v with
  | VUndefined | VNull => false
  | VBool b => b
  | VNum n => negb (n =? 0)
  | VStr s => negb (s =? "")%string
  | VArr _ | VObj _ => true
  end.

(** [a || b] with [b] free of effects. *)
Definition logical_or (a b : value) : value := if truthy a then a else b.

(** ToString, as applied by template literals and [new Error(msg)], on
    the values it converts without throwing (see [ToString_or_throw] and
    [convertible] below).  An array is joined with commas, [null] and
    [undefined] elements giving the empty string; an object with no
    [toString] of its own gives ["[object Object]"]. *)
Fixpoint ToString (v : value) : string :=
  match v with
  | VUndefined => "undefined"
  | VNull => "null"
  | VBool true => "true"
  | VBool false => "false"
  | VNum n => Number_toString n
  | VStr s => s
  | VArr xs =>
      let elem x := if nullish x then "" else ToString x in
      (fix join (l : list value) : string :=
         match l with
         | [] => ""
         | [x] => elem x
         | x :: r => elem x ++ "," ++ join r
         end) xs
  | VObj _ => "[object Object]"
  end.

(** Whether an object has an own property [k]. *)
Definition has_own (props : list (string * value)) (k : string) : bool :=
  existsb (fun kv => (fst kv =? k)%string) props.

(** The conversion of a template literal with what it throws.  An object
    with an own [toString] property, which in parsed JSON is never a
    function, has no primitive value: the engine finds nothing to call
    ([valueOf] gives the object back) and throws.  Joining an array
    converts its elements from the left and throws what the first failing
    one throws.  Where it does not throw, this is [ToString]. *)
Fixpoint ToString_or_throw (v : value) : completion string :=
  match v with
  | VArr xs =>
      let elem x := if nullish x then Normal EmptyString else ToString_or_throw x in
      (fix join (l : list value) : completion string :=
         match l with
         | [] => Normal EmptyString
         | [x] => elem x
         | x :: r => a <~ elem x ;; b <~ join r ;; Normal (a ++ "," ++ b)
         end) xs
  | VObj props =>
      if has_own props "toString"
      then Throw (TypeError "Cannot convert object to primitive value")
      else Normal "[object Object]"
  | _ => Normal (ToString v)
  end.

(** The values whose conversion does not throw: no object with an own
    [toString] property, at any depth of arrays. *)
Fixpoint convertible (v : value) : bool :=
  match v with
  | VArr xs =>
      (fix all (l : list value) : bool :=
         match l with
         | [] => true
         | x :: r => convertible x && all r
         end) xs
  | VObj props => negb (has_own props "toString")
  | _ => true
  end.

Fixpoint own (props : list (string * value)) (k : string) : value :=
  match props with
  | [] => VUndefined
  | (k', v) :: r => if (k' =? k)%string then v else own r k
  end.

(** [v?.k]: [undefined] on [null] and [undefined], the property otherwise.
    Arrays and strings have [length]; no other inherited property is among
    the names the program reads.  The length of a string is counted in
    bytes here, in UTF-16 units in the engine: the program only compares it
    with [0], where both agree. *)
Definition opt_get (v : value) (k : string) : value :=
  match v with
  | VObj props => own props k
  | VArr xs => if (k =? "length")%string then VNum (Z.of_nat (List.length xs)) else VUndefined
  | VStr s => if (k =? "length")%string then VNum (Z.of_nat (String.length s)) else VUndefined
  | _ => VUndefined
  end.

(** [v.k]: a TypeError on [null] and [undefined]. *)
Definition get (v : value) (k : string) : completion value :=
  if nullish v
  then Throw (TypeError ("Cannot read properties of " ++ ToString v ++ " (reading '" ++ k ++ "')"))
  else Normal (opt_get v k).

(** [a === b] against a number literal. *)
Definition strict_eq_num (v : value) (k : Z) : bool :=
  match v with VNum n => n =? k | _ => false end.

(** [Array.prototype.join]. *)
Definition join (sep : string) (l : list string) : string := String.concat sep l.

(** *** JSON.stringify(v, null, 2) *)

Definition hex_digit (n : N) : ascii :=
  match n with
  | 10%N => "a" | 11%N => "b" | 12%N => "c" | 13%N => "d" | 14%N => "e" | 15%N => "f"
  | _ => ascii_of_N (48 + n)
  end%char.

Definition dq : string := String (ascii_of_N 34) EmptyString.

Definition quote_char (c : ascii) : string :=
  let n := N_of_ascii c in
  if (n =? 34)%N then "\" ++ dq
  else if (n =? 92)%N then "\\"
  else if (n =? 8)%N then "\b"
  else if (n =? 9)%N then "\t"
  else if (n =? 10)%N then "\n"
  else if (n =? 12)%N then "\f"
  else if (n =? 13)%N then "\r"
  else if (n <? 32)%N then "\u00" ++ String (hex_digit (n / 16)) (String (hex_digit (n mod 16)) "")
  else String c "".

Fixpoint quote_chars (s : string) : string :=
  match s with
  | EmptyString => ""
  | String c r => quote_char c ++ quote_chars r
  end.

Definition QuoteJSONString (s : string) : string := dq ++ quote_chars s ++ dq.

Definition is_undefined (v : value) : bool :=
  match v with VUndefined => true | _ => false end.

(** The text of a value that is not [undefined], at indentation [ind]. *)
Fixpoint stringify_at (ind : string) (v : value) : string :=
  let ind' := ind ++ "  " in
  let nl := String (ascii_of_N 10) "" in
  match v with
  | VUndefined | VNull => "null"
  | VBool true => "true"
  | VBool false => "false"
  | VNum n => Number_toString n
  | VStr s => QuoteJSONString s
  | VArr [] => "[]"
  | VArr xs =>
      "[" ++ nl ++ ind' ++
      (fix items (l : list value) : string :=
         match l with
         | [] => ""
         | [x] => stringify_at ind' x
         | x :: r => stringify_at ind' x ++ "," ++ nl ++ ind' ++ items r
         end) xs
      ++ nl ++ ind ++ "]"
  | VObj props =>
      let body :=
        (fix members (l : list (string * value)) : list string :=
           match l with
           | [] => []
           | (k, x) :: r =>
               if is_undefined x then members r
               else (QuoteJSONString k ++ ": " ++ stringify_at ind' x) :: members r
           end) props in
      match body with
      | [] => "{}"
      | _ => "{" ++ nl ++ ind' ++ String.concat ("," ++ nl ++ ind') body ++ nl ++ ind ++ "}"
      end
  end.

(** [`${JSON.stringify(v, null, 2)}`]: [JSON.stringify(undefined)] is
    [undefined], which the template literal prints as such. *)
Definition JSON_stringify (v : value) : string :=
  if is_undefined v then "undefined" else stringify_at "" v.

End JS.
Import JS.

(** The newline of the source's [\n] escapes. *)
Definition nl : string := String (ascii_of_N 10) EmptyString.

(** ** HTTP through axios, and the monad of [async] functions *)

Module Http.

Record HttpsAgent := {
  rejectUnauthorized : bool;
  secureProtocol : string
}.

Record AxiosResponse := {
  status : Z;
  statusText : string;
  data : value
}.

(** A rejected request: [error.response] is absent when no answer came
    (network failure, timeout). *)
Record AxiosError := {
  response : option AxiosResponse;
  error_message : string
}.

(** The defaults given to [axios.create]; the bare [axios] has none. *)
Record AxiosDefaults := {
  baseURL : option string;
  timeout : option Z;
  httpsAgent : option HttpsAgent;
  headers : list (string * string);
  auth : option (option string * option string)
}.

(** A client: its defaults and the rejection handler of its response
    interceptor, which decides what a failed request throws. *)
Record AxiosInstance := {
  defaults : AxiosDefaults;
  rejected : AxiosError -> exn
}.

Record request := {
  method : string;
  url : string;
  request_headers : list (string * string);
  form : list (string * string);
  client : AxiosDefaults
}.

Inductive reply :=
| Resolve (r : AxiosResponse)
| Reject (e : AxiosError).

(** The requests sent so far, oldest first. *)
Definition trace := list request.

(** The world outside the process: what each request is answered, given
    the requests before it. *)
Definition network := trace -> request -> reply.

(** An [async] computation. *)
Definition IO (A : Type) : Type := network -> trace -> completion A * trace.

Definition ret {A} (a : A) : IO A := fun _ tr => (Normal a, tr).

Definition throw {A} (e : exn) : IO A := fun _ tr => (Throw e, tr).

Definition bind {A B} (m : IO A) (k : A -> IO B) : IO B :=
  fun net tr =>
    match m net tr with
    | (Normal a, tr') => k a net tr'
    | (Throw e, tr') => (Throw e, tr')
    end.

(** [try { m } catch (error) { h error }]. *)
Definition try_catch {A} (m : IO A) (h : exn -> IO A) : IO A :=
  fun net tr =>
    match m net tr with
    | (Normal a, tr') => (Normal a, tr')
    | (Throw e, tr') => h e net tr'
    end.

(** A synchronous expression evaluated inside an [async] function. *)
Definition lift {A} (c : completion A) : IO A := fun _ tr => (c, tr).

Definition send (inst : AxiosInstance) (rq : request) : IO AxiosResponse :=
  fun net tr =>
    match net tr rq with
    | Resolve r => (Normal r, (tr ++ [rq])%list)
    | Reject e => (Throw (rejected inst e), (tr ++ [rq])%list)
    end.

Definition axios_get (inst : AxiosInstance) (u : string) (hs : list (string * string))
  : IO AxiosResponse :=
  send inst {| method := "GET"; url := u; request_headers := hs; form := [];
               client := defaults inst |}.

Definition axios_post (inst : AxiosInstance) (u : string) (body : list (string * string))
  (hs : list (string * string)) : IO AxiosResponse :=
  send inst {| method := "POST"; url := u; request_headers := hs; form := body;
               client := defaults inst |}.

(** The module-level [axios]: no defaults, and a failed request throws the
    axios error itself, of which the program reads [message]. *)
Definition axios : AxiosInstance := {|
  defaults := {| baseURL := None; timeout := None; httpsAgent := None;
                 headers := []; auth := None |};
  rejected := fun e => Error (error_message e)
|}.

End Http.
Import Http.

Notation "x <- c ;; k" := (bind c (fun x => k))
  (at level 61, c at next level, right associativity).

(** ** src/utils/config.js *)

Module Config.

(** [process.env]. *)
Definition env := string -> option string.

(** [process.env[key]] as a condition: set and not empty. *)
Definition present (e : env) (key : string) : bool :=
  match e key with
  | Some s => negb (s =? "")%string
  | None => false
  end.

(** [process.env[key] || dflt]. *)
Definition or_default (e : env) (key dflt : string) : string :=
  match e key with
  | Some s => if (s =? "")%string then dflt else s
  | None => dflt
  end.

Definition required : list string := ["SAP_BASE_URL"; "SAP_USERNAME"; "SAP_PASSWORD"].

Definition validate (e : env) : completion unit :=
  let missing := filter (fun key => negb (present e key)) required in
  if (0 <? Z.of_nat (List.length missing))
  then Throw (Error ("Missing required environment variables: " ++ join ", " missing))
  else Normal tt.

Record SapConfig := {
  baseUrl : option string;
  username : option string;
  password : option string;
  client : string;
  productService : string
}.

Definition sap (e : env) : SapConfig := {|
  baseUrl := e "SAP_BASE_URL";
  username := e "SAP_USERNAME";
  password := e "SAP_PASSWORD";
  client := or_default e "SAP_CLIENT" "100";
  productService := or_default e "SAP_PRODUCT_SERVICE" "/sap/opu/odata/sap/API_PRODUCT_SRV"
|}.

End Config.

(** ** src/services/sap-service.js: class SAPService *)

Module SAPService.

Record t := {
  config : Config.SapConfig;
  axios : AxiosInstance
}.

Definition formatError (error : AxiosError) : exn :=
  let sapMessage :=
    match response error with
    | None => VUndefined
    | Some r => opt_get (opt_get (opt_get (data r) "error") "message") "value"
    end in
  let status :=
    match response error with None => VUndefined | Some r => VNum (Http.status r) end in
  let statusText :=
    match response error with None => VUndefined | Some r => VStr (Http.statusText r) end in
  Error (ToString (logical_or sapMessage
    (VStr ("SAP API Error: " ++ ToString status ++ " " ++ ToString statusText
           ++ " - " ++ error_message error)))).

Definition createAxiosClient (config : Config.SapConfig) : AxiosInstance :=
  let httpsAgent := {|
    rejectUnauthorized := false;
    secureProtocol := "TLSv1_2_method"
  |} in
  {| defaults := {|
       baseURL := Config.baseUrl config;
       timeout := Some 30000;
       httpsAgent := Some httpsAgent;
       headers := [("Content-Type", "application/json");
                   ("X-Requested-With", "XMLHttpRequest")];
       auth := Some (Config.username config, Config.password config)
     |};
     rejected := formatError |}.

Definition constructor (e : Config.env) : completion t :=
  _ <~ Config.validate e ;;
  Normal {| config := Config.sap e; axios := createAxiosClient (Config.sap e) |}.

(** The [url] that [getProducts] builds before it calls the backend
    (lines 57-62); [top = 10, skip = 0, search = ''] are the defaults of the
    parameters, taken when the argument is [undefined]. *)
Definition getProducts_url (this : t) (top skip : option Z) (search : option string)
  : string :=
  let top := match top with Some n => n | None => 10 end in
  let skip := match skip with Some n => n | None => 0 end in
  let search := match search with Some s => s | None => EmptyString end in
  let url := Config.productService (config this) ++ "/ProductSet" in
  let url := url ++ "?$top=" ++ Number_toString top ++ "&$skip=" ++ Number_toString skip
                 ++ "&$format=json" in
  let url :=
    if truthy (VStr search)
    then url ++ "&$filter=contains(ProductDescription,'" ++ search ++ "')"
    else url in
  url.

Definition getProducts (this : t) (top skip : option Z) (search : option string)
  : IO value :=
  response <- axios_get (axios this) (getProducts_url this top skip search) [] ;;
  ret (data response).

Definition healthCheck (this : t) : IO value :=
  try_catch
    (let url := Config.productService (config this) ++ "/ProductSet?$top=1" in
     _ <- axios_get (axios this) url [] ;;
     ret (VObj [("status", VStr "connected");
                ("message", VStr "Successfully connected to SAP")]))
    (fun error =>
       ret (VObj [("status", VStr "error");
                  ("message", VStr ("SAP connection failed: " ++ message error))])).

End SAPService.

(** ** zod parameter schemas *)

Module Zod.

Inductive check :=
| CMin (k : Z)
| CMax (k : Z)
| CInt.

(** A schema, indexed by the type of what it parses to. *)
Inductive schema : Type -> Type :=
| ZodNumber (checks : list check) : schema Z
| ZodString : schema string
| ZodEnum (values : list string) : schema string
| ZodDefault {A} (inner : schema A) (dflt : value) : schema A
| ZodOptional {A} (inner : schema A) : schema (option A).

Definition number : schema Z := ZodNumber [].
Definition string : schema String.string := ZodString.
Definition enum (values : list String.string) : schema String.string := ZodEnum values.

Definition add_check (c : check) (s : schema Z) : schema Z :=
  match s in schema T return schema T with
  | ZodNumber cs => ZodNumber (cs ++ [c])
  | other => other
  end.

Definition min (k : Z) : schema Z -> schema Z := add_check (CMin k).
Definition max (k : Z) : schema Z -> schema Z := add_check (CMax k).
Definition int : schema Z -> schema Z := add_check CInt.
Definition default {A} (d : value) (s : schema A) : schema A := ZodDefault s d.
Definition optional {A} (s : schema A) : schema (option A) := ZodOptional s.

(** [.describe(text)] attaches documentation and leaves parsing as it is. *)
Definition describe {A} (text : String.string) (s : schema A) : schema A := s.

(** Bounds are inclusive.  Every number of the model is an integer, so
    [CInt] always passes here; the engine rejects fractions with it. *)
Definition passes (n : Z) (c : check) : bool :=
  match c with
  | CMin k => k <=? n
  | CMax k => n <=? k
  | CInt => true
  end.

Fixpoint parse {A} (s : schema A) (v : value) : option A :=
  match s in schema T return option T with
  | ZodNumber cs =>
      match v with
      | VNum n => if forallb (passes n) cs then Some n else None
      | _ => None
      end
  | ZodString => match v with VStr x => Some x | _ => None end
  | ZodEnum values =>
      match v with
      | VStr x => if existsb (String.eqb x) values then Some x else None
      | _ => None
      end
  | ZodDefault inner d => parse inner (if is_undefined v then d else v)
  | ZodOptional inner =>
      if is_undefined v then Some None else option_map Some (parse inner v)
  end.

(** The checks a number schema declares, through its wrappers. *)
Fixpoint checks {A} (s : schema A) : list check :=
  match s with
  | ZodNumber cs => cs
  | ZodDefault inner _ => checks inner
  | ZodOptional inner => checks inner
  | _ => []
  end.

(** The object of named parameters a tool is registered with. *)
Inductive shape : Type -> Type :=
| SNil : shape unit
| SCons {A B} (key : String.string) (s : schema A) (rest : shape B) : shape (A * B).

Fixpoint parse_fields {T} (sh : shape T) (input : value) : option T :=
  match sh in shape T return option T with
  | SNil => Some tt
  | SCons key s rest =>
      match parse s (opt_get input key), parse_fields rest input with
      | Some a, Some b => Some (a, b)
      | _, _ => None
      end
  end.

(** [z.object(shape).safeParse(input)]: the input must be an object;
    unknown keys are dropped. *)
Definition parse_object {T} (sh : shape T) (input : value) : option T :=
  match input with
  | VObj _ => parse_fields sh input
  | _ => None
  end.

End Zod.

Notation "s .> f" := (f s) (at level 45, left associativity, only parsing).

(** ** The tool registry of McpServer *)

Module Mcp.

Record ContentItem := {
  type : string;
  text : string
}.

Record ToolResult := {
  content : list ContentItem
}.

(** [{ content: [{ type: 'text', text }] }]. *)
Definition text_result (t : string) : ToolResult :=
  {| content := [ {| type := "text"; text := t |} ] |}.

Record Tool := {
  name : string;
  description : option string;
  Args : Type;
  paramsSchema : Zod.shape Args;
  callback : Args -> IO ToolResult
}.

(** The server, as the list of the tools registered so far. *)
Definition McpServer := list Tool.

(** [server.tool(name, [description,] schema, callback)].  The SDK refuses
    a name that is registered already; the names of the program are
    distinct. *)
Definition tool (server : McpServer) (nm : string) (descr : option string)
  {T} (sh : Zod.shape T) (cb : T -> IO ToolResult) : McpServer :=
  (server ++ [ {| name := nm; description := descr; paramsSchema := sh; callback := cb |} ])%list.

(** A [tools/call] request that reached the callback: the arguments are
    parsed against the schema first, and the callback runs on what the
    parse gives.  [None] when the schema refuses the arguments. *)
Definition invoke (t : Tool) (arguments : value) : option (IO ToolResult) :=
  option_map (callback t) (Zod.parse_object (paramsSchema t) arguments).

Definition find_tool (server : McpServer) (nm : string) : option Tool :=
  find (fun t => (name t =? nm)%string) server.

(** A [tools/call] request by name. *)
Definition call_tool (server : McpServer) (nm : string) (arguments : value)
  : option (IO ToolResult) :=
  match find_tool server nm with
  | Some t => invoke t arguments
  | None => None
  end.

End Mcp.
Import Mcp.

(** [v.map(f)] needs an array: reading [map] off [null] or [undefined]
    throws, and so does calling what any other value has under that name.
    [expr] is the source text of [v], which the engine quotes. *)
Definition array_of (expr : string) (v : value) : completion (list value) :=
  match v with
  | VArr xs => Normal xs
  | VUndefined | VNull =>
      Throw (TypeError ("Cannot read properties of " ++ ToString v ++ " (reading 'map')"))
  | _ => Throw (TypeError (expr ++ ".map is not a function"))
  end.

(** ** src/server/mcp-server.js: class SAPMCPServer *)

Module SAPMCPServer.

(** The object given to the constructor, seen through the three method
    names the server calls on it; [None] where the object has no such
    method. *)
Record sapService := {
  healthCheck : option (IO value);
  getProducts : option (option Z -> option Z -> option string -> IO value);
  get_sales_orders : option (option Z -> option Z -> option string -> IO value)
}.

(** [this.sapService.name(...)]: calling [undefined] is a TypeError. *)
Definition method {F A} (name : string) (m : option F) (call : F -> IO A) : IO A :=
  match m with
  | Some f => call f
  | None => throw (TypeError ("this.sapService." ++ name ++ " is not a function"))
  end.

(** The bullet of the two list templates, byte for byte as the source
    file has it. *)
Definition bullet : string := "â€¢".

Definition sap_health_check_callback (sap : sapService) (args : unit) : IO ToolResult :=
  try_catch
    (health <- method "healthCheck" (healthCheck sap) (fun f => f) ;;
     status <- lift (get health "status") ;;
     msg <- lift (get health "message") ;;
     ret (text_result ("SAP Health Check:" ++ nl ++ "Status: " ++ ToString status
                       ++ nl ++ "Message: " ++ ToString msg)))
    (fun error => ret (text_result ("Health check failed: " ++ message error))).

Definition registerHealthTool (sap : sapService) (server : McpServer) : McpServer :=
  tool server "sap_health_check" None Zod.SNil (sap_health_check_callback sap).

(** [data.d?.results || data.value || []]. *)
Definition product_rows (data : value) : completion value :=
  d <~ get data "d" ;;
  let results := opt_get d "results" in
  if truthy results then Normal results
  else v <~ get data "value" ;; Normal (logical_or v (VArr [])).

(** The line template of a product.  Each placeholder is evaluated and
    converted before the next one is looked at. *)
Definition product_line (product : value) : completion string :=
  ProductID <~ get product "ProductID" ;;
  id <~ ToString_or_throw ProductID ;;
  Description <~ get product "Description" ;;
  description <~ ToString_or_throw (logical_or Description (VStr "No description")) ;;
  Category <~ get product "Category" ;;
  category <~ ToString_or_throw (logical_or Category (VStr "N/A")) ;;
  Normal (bullet ++ " " ++ id ++ " - " ++ description ++ " (" ++ category ++ ")").

(** The [try] block of the get_products callback from the line after the
    backend call: lines 69-89.  The two sums of the heading are exact as
    long as they are safe integers. *)
Definition render_products (skip : Z) (data : value) : completion ToolResult :=
  products <~ product_rows data ;;
  len <~ get products "length" ;;
  if strict_eq_num len 0
  then Normal (text_result "No products found matching your criteria.")
  else
    rows <~ array_of "products" products ;;
    lines <~ cmap product_line rows ;;
    let productList := join nl lines in
    let count := Z.of_nat (List.length rows) in
    Normal (text_result
      ("Products " ++ Number_toString (skip + 1) ++ " to " ++ Number_toString (skip + count)
       ++ ":" ++ nl ++ nl ++ productList ++ nl ++ nl
       ++ "Total: " ++ Number_toString count ++ " products")).

Definition get_products_callback (sap : sapService)
  (args : Z * (Z * (option string * unit))) : IO ToolResult :=
  let '(top, (skip, (search, _))) := args in
  try_catch
    (data <- method "getProducts" (getProducts sap)
               (fun f => f (Some top) (Some skip) search) ;;
     lift (render_products skip data))
    (fun error => ret (text_result ("Error fetching products: " ++ message error))).

(** The parameter object of get_products (lines 58-65). *)
Definition get_products_schema : Zod.shape (Z * (Z * (option string * unit))) :=
  Zod.SCons "top"
    (Zod.number .> Zod.min 1 .> Zod.max 100 .> Zod.default (VNum 10)
       .> Zod.describe "Number of records to fetch")
 (Zod.SCons "skip"
    (Zod.number .> Zod.min 0 .> Zod.default (VNum 0)
       .> Zod.describe "Number of records to skip (for pagination)")
 (Zod.SCons "search"
    (Zod.string .> Zod.optional .> Zod.describe "Search in product description")
  Zod.SNil)).

Definition registerProductTools (sap : sapService) (server : McpServer) : McpServer :=
  tool server "get_products" None get_products_schema (get_products_callback sap).

(** [data?.d?.results || data.value || []]. *)
Definition order_rows (data : value) : completion value :=
  let results := opt_get (opt_get data "d") "results" in
  if truthy results then Normal results
  else v <~ get data "value" ;; Normal (logical_or v (VArr [])).

Definition order_line (order : value) : completion string :=
  SalesOrderID <~ get order "SalesOrderID" ;;
  id <~ ToString_or_throw SalesOrderID ;;
  CustomerID <~ get order "CustomerID" ;;
  customer <~ ToString_or_throw CustomerID ;;
  NetAmount <~ get order "NetAmount" ;;
  amount <~ ToString_or_throw (logical_or NetAmount (VStr "N/A")) ;;
  CurrencyCode <~ get order "CurrencyCode" ;;
  currency <~ ToString_or_throw (logical_or CurrencyCode (VStr EmptyString)) ;;
  Normal (bullet ++ " " ++ id ++ " - Customer: " ++ customer
          ++ " - Total: " ++ amount ++ " " ++ currency).

(** Lines 117-137 of the get_sales_orders callback; the sums as in
    [render_products]. *)
Definition render_orders (skip : Z) (data : value) : completion ToolResult :=
  orders <~ order_rows data ;;
  len <~ get orders "length" ;;
  if strict_eq_num len 0
  then Normal (text_result "No sales orders found matching your criteria.")
  else
    rows <~ array_of "orders" orders ;;
    lines <~ cmap order_line rows ;;
    let orderList := join nl lines in
    let count := Z.of_nat (List.length rows) in
    Normal (text_result
      ("Sales Orders " ++ Number_toString (skip + 1) ++ " to " ++ Number_toString (skip + count)
       ++ ":" ++ nl ++ nl ++ orderList ++ nl ++ nl
       ++ "Total: " ++ Number_toString count ++ " orders")).

Definition get_sales_orders_callback (sap : sapService)
  (args : Z * (Z * (option string * unit))) : IO ToolResult :=
  let '(top, (skip, (customerId, _))) := args in
  try_catch
    (data <- method "get_sales_orders" (get_sales_orders sap)
               (fun f => f (Some top) (Some skip) customerId) ;;
     lift (render_orders skip data))
    (fun error => ret (text_result ("Error fetching sales orders: " ++ message error))).

(** The parameter object of get_sales_orders (lines 105-112). *)
Definition get_sales_orders_schema : Zod.shape (Z * (Z * (option string * unit))) :=
  Zod.SCons "top"
    (Zod.number .> Zod.min 1 .> Zod.max 100 .> Zod.default (VNum 10)
       .> Zod.describe "Number of records to fetch")
 (Zod.SCons "skip"
    (Zod.number .> Zod.min 0 .> Zod.default (VNum 0)
       .> Zod.describe "Number of records to skip (for pagination)")
 (Zod.SCons "customerId"
    (Zod.string .> Zod.optional .> Zod.describe "Filter by customer ID")
  Zod.SNil)).

Definition registerSalesOrderTools (sap : sapService) (server : McpServer) : McpServer :=
  tool server "get_sales_orders" None get_sales_orders_schema (get_sales_orders_callback sap).

Definition registerTools (sap : sapService) (server : McpServer) : McpServer :=
  registerSalesOrderTools sap (registerProductTools sap (registerHealthTool sap server)).

(** [new SAPMCPServer(sapService)], as the list of its registered tools. *)
Definition constructor (sap : sapService) : McpServer := registerTools sap [].

(** An instance of class SAPService as the server sees it: the class
    defines [createAxiosClient], [formatError], [getProducts] and
    [healthCheck]; its sales-order method is commented out, and was named
    [getSalesOrders]. *)
Definition of_SAPService (s : SAPService.t) : sapService := {|
  healthCheck := Some (SAPService.healthCheck s);
  getProducts := Some (SAPService.getProducts s);
  get_sales_orders := None
|}.

(** [start]: [await this.server.connect(transport)] on a new stdio
    transport.  [connect] is the SDK's part, which sends no request to the
    backend and may throw. *)
Definition start (connect : McpServer -> completion unit) (server : McpServer) : IO unit :=
  lift (connect server).

End SAPMCPServer.

(** ** src/index.js *)

Module Index.

(** How [main] leaves the process: serving the tools of a connected
    server, or ended by [process.exit(code)]. *)
Inductive outcome :=
| Serving (server : McpServer)
| Exited (code : Z).

(** [main]: the whole body is one [try], whose [catch] logs the message
    and calls [process.exit(1)]. *)
Definition main (connect : McpServer -> completion unit) (e : Config.env) : IO outcome :=
  try_catch
    (sapService <- lift (SAPService.constructor e) ;;
     health <- SAPService.healthCheck sapService ;;
     let mcpServer := SAPMCPServer.constructor (SAPMCPServer.of_SAPService sapService) in
     _ <- SAPMCPServer.start connect mcpServer ;;
     ret (Serving mcpServer))
    (fun error => ret (Exited 1)).

End Index.

(** ** The HTTP variant: BTPDestinationService and its two tools *)

Module BTP.

Record BTPDestinationService := {
  destinationService : value
}.

(** [xsenv.getServices({ destination: { tag: 'destination' } }).destination]:
    the credentials of the bound destination service; xsenv throws when no
    bound service matches.  [bound] is what the platform provides. *)
Definition xsenv_getServices (bound : option value) : completion value :=
  match bound with
  | Some credentials => Normal credentials
  | None => Throw (Error "No service matches destination")
  end.

Definition initializeServices (bound : option value) (this : BTPDestinationService)
  : BTPDestinationService :=
  match xsenv_getServices bound with
  | Normal credentials => {| destinationService := credentials |}
  | Throw _ => this
  end.

Definition constructor (bound : option value) : BTPDestinationService :=
  initializeServices bound {| destinationService := VNull |}.

Definition bearer (token : value) : list (string * string) :=
  [("Authorization", "Bearer " ++ ToString token)].

Definition getAccessToken (this : BTPDestinationService) : IO value :=
  if negb (truthy (destinationService this))
  then throw (Error "Destination service not available")
  else
    response <- axios_post axios
      (ToString (opt_get (destinationService this) "url") ++ "/oauth/token")
      [("grant_type", "client_credentials");
       ("client_id", ToString (opt_get (destinationService this) "clientid"));
       ("client_secret", ToString (opt_get (destinationService this) "clientsecret"))]
      [("Content-Type", "application/x-www-form-urlencoded")] ;;
    lift (get (data response) "access_token").

(** [entity = ''] is the default of the parameter.  When the lookup of the
    destination fails the error is logged and [destResponse] stays
    [undefined], so the next line throws.  Without an entity the request
    goes to [baseUrl] itself, written here as the string it converts to. *)
Definition callDestination (this : BTPDestinationService) (destinationName : string)
  (entity : option string) : IO value :=
  let entity := match entity with Some s => s | None => EmptyString end in
  token <- getAccessToken this ;;
  destResponse <-
    try_catch
      (r <- axios_get axios
              (ToString (opt_get (destinationService this) "uri")
               ++ "/destination-configuration/v1/destinations/" ++ destinationName)
              (bearer token) ;;
       ret (Some r))
      (fun error => ret None) ;;
  baseUrl <- lift
    match destResponse with
    | None => Throw (TypeError "Cannot read properties of undefined (reading 'data')")
    | Some r =>
        destinationConfiguration <~ get (data r) "destinationConfiguration" ;;
        get destinationConfiguration "URL"
    end ;;
  let url :=
    if truthy (VStr entity) then ToString baseUrl ++ "/" ++ entity else ToString baseUrl in
  serviceResponse <- axios_get axios url (bearer token) ;;
  ret (data serviceResponse).

(** The module-level [btpService]: assigned inside a [try], so it would
    stay [undefined] had the constructor thrown. *)
Definition btpService (bound : option value) : option BTPDestinationService :=
  Some (constructor bound).

Definition list_destinations_callback (btpService : option BTPDestinationService)
  (args : unit) : IO ToolResult :=
  try_catch
    match btpService with
    | None =>
        ret (text_result "❌ BTP Destination Service not available. Check service binding.")
    | Some service =>
        token <- getAccessToken service ;;
        response <- axios_get axios
          (ToString (opt_get (destinationService service) "uri")
           ++ "/destination-configuration/v1/subaccountDestinations")
          (bearer token) ;;
        rows <- lift (array_of "response.data" (data response)) ;;
        destinations <- lift (cmap
          (fun dest =>
             Name <~ get dest "Name" ;;
             Type_ <~ get dest "Type" ;;
             URL <~ get dest "URL" ;;
             Normal (VObj [("name", Name); ("type", Type_); ("url", URL)]))
          rows) ;;
        ret (text_result ("Available Destinations:" ++ nl
                          ++ JSON_stringify (VArr destinations)))
    end
    (fun error => ret (text_result ("❌ Error listing destinations: " ++ message error))).

Definition query_northwind_callback (btpService : option BTPDestinationService)
  (args : string * (Z * (option string * unit))) : IO ToolResult :=
  let '(entity, (top, (skip, _))) := args in
  try_catch
    match btpService with
    | None => throw (Error "BTP services not available")
    | Some service =>
        let skip_or_0 :=
          logical_or (match skip with Some s => VStr s | None => VUndefined end) (VNum 0) in
        result <- callDestination service "northwind"
          (Some (entity ++ "?$top=" ++ Number_toString top ++ "&$skip=" ++ ToString skip_or_0)) ;;
        ret (text_result ("Northwind " ++ entity ++ " (first " ++ Number_toString top ++ "):"
                          ++ nl ++ JSON_stringify result))
    end
    (fun error => ret (text_result ("❌ Error querying Northwind: " ++ message error))).

(** The parameter object of query_northwind (lines 244-248 of the
    service file). *)
Definition query_northwind_schema : Zod.shape (string * (Z * (option string * unit))) :=
  Zod.SCons "entity"
    (Zod.enum ["Products"; "Customers"; "Orders"; "Categories"; "Suppliers"])
 (Zod.SCons "top"
    (Zod.number .> Zod.min 1 .> Zod.max 100 .> Zod.default (VNum 5))
 (Zod.SCons "skip"
    (Zod.string .> Zod.optional)
  Zod.SNil)).

(** The two [server.tool] registrations. *)
Definition server (btpService : option BTPDestinationService) : McpServer :=
  let server := [] in
  let server :=
    tool server "list_destinations" (Some "List all available BTP destinations")
      Zod.SNil (list_destinations_callback btpService) in
  tool server "query_northwind" (Some "Query Northwind service via BTP destination")
    query_northwind_schema (query_northwind_callback btpService).

End BTP.

(** ** mcp-client.js: class MCPClient, the request and response bookkeeping *)

Module MCPClient.

(** [JSON.stringify(v)] with no indentation, for a value that is not
    [undefined]. *)
Fixpoint stringify (v : value) : string :=
  match v with
  | VUndefined | VNull => "null"
  | VBool true => "true"
  | VBool false => "false"
  | VNum n => Number_toString n
  | VStr s => QuoteJSONString s
  | VArr xs =>
      "[" ++
      (fix items (l : list value) : string :=
         match l with
         | [] => EmptyString
         | [x] => stringify x
         | x :: r => stringify x ++ "," ++ items r
         end) xs
      ++ "]"
  | VObj props =>
      "{" ++
      String.concat ","
        ((fix members (l : list (string * value)) : list string :=
            match l with
            | [] => []
            | (k, x) :: r =>
                if is_undefined x then members r
                else (QuoteJSONString k ++ ":" ++ stringify x) :: members r
            end) props)
      ++ "}"
  end.

(** [obj.k = v] on the properties of an object: an existing property keeps
    its place, a new one goes last. *)
Fixpoint set_prop (props : list (string * value)) (k : string) (v : value)
  : list (string * value) :=
  match props with
  | [] => [(k, v)]
  | (k', x) :: r => if (k' =? k)%string then (k', v) :: r else (k', x) :: set_prop r k v
  end.

(** How the promise of a request ended: [resolve(response)] from the line
    handler, or [reject(error)] from the timer. *)
Inductive settlement :=
| Resolved (response : value)
| Rejected (e : exn).

(** The fields [messageId] and [pendingRequests] (the keys of the Map, in
    insertion order; each key stands for the [resolve] and [reject] of the
    promise made for that request) and the lines written to the server's
    standard input.  Two more components belong to the runtime: the ids
    whose 30 s timer is set and has not fired, and the promises settled so
    far, oldest first. *)
Record t := {
  messageId : Z;
  pendingRequests : list Z;
  stdin : list string;
  timers : list Z;
  settled : list (Z * settlement)
}.

Definition constructor : t := {|
  messageId := 1;
  pendingRequests := [];
  stdin := [];
  timers := [];
  settled := []
|}.

(** [Map.prototype.has], [set] and [delete] on the keys.  The keys put in
    are numbers; a response id that is no number equals none of them. *)
Definition has (pending : list Z) (id : value) : bool :=
  match id with
  | VNum n => existsb (Z.eqb n) pending
  | _ => false
  end.

Definition set (pending : list Z) (n : Z) : list Z :=
  if existsb (Z.eqb n) pending then pending else (pending ++ [n])%list.

Definition delete (pending : list Z) (n : Z) : list Z :=
  filter (fun k => negb (k =? n)) pending.

(** [sendMCPMessage(message)]: the executor of the promise, run at once.
    Returns the id, which names the promise. *)
Definition sendMCPMessage (message : list (string * value)) (c : t) : Z * t :=
  let id := messageId c in
  let message := set_prop message "id" (VNum id) in
  (id,
   {| messageId := id + 1;
      pendingRequests := set (pendingRequests c) id;
      stdin := (stdin c ++ [(stringify (VObj message) ++ nl)%string])%list;
      timers := (timers c ++ [id])%list;
      settled := settled c |}).

(** The callback of [setTimeout] for the request [id]. *)
Definition on_timeout (id : Z) (c : t) : t :=
  if existsb (Z.eqb id) (timers c)
  then
    let c := {| messageId := messageId c;
                pendingRequests := pendingRequests c;
                stdin := stdin c;
                timers := delete (timers c) id;
                settled := settled c |} in
    if has (pendingRequests c) (VNum id)
    then {| messageId := messageId c;
            pendingRequests := delete (pendingRequests c) id;
            stdin := stdin c;
            timers := timers c;
            settled := (settled c ++ [(id, Rejected (Error "MCP request timeout"))])%list |}
    else c
  else c.

Definition initMessage : list (string * value) :=
  [("jsonrpc", VStr "2.0");
   ("method", VStr "initialize");
   ("params", VObj [("protocolVersion", VStr "2024-11-05");
                    ("capabilities", VObj []);
                    ("clientInfo", VObj [("name", VStr "mcp-llama-client");
                                         ("version", VStr "1.0.0")])])].

(** [initializeMCP], up to the promise it awaits. *)
Definition initializeMCP (c : t) : Z * t := sendMCPMessage initMessage c.

(** [getAvailableTools]: the message is built with [id: this.messageId++]
    and then sent, which numbers it again. *)
Definition getAvailableTools (c : t) : Z * t :=
  let message :=
    [("jsonrpc", VStr "2.0"); ("method", VStr "tools/list"); ("id", VNum (messageId c))] in
  let c := {| messageId := messageId c + 1;
              pendingRequests := pendingRequests c;
              stdin := stdin c;
              timers := timers c;
              settled := settled c |} in
  sendMCPMessage message c.

Definition callTool (name : string) (arguments_ : value) (c : t) : Z * t :=
  sendMCPMessage
    [("jsonrpc", VStr "2.0");
     ("method", VStr "tools/call");
     ("params", VObj [("name", VStr name); ("arguments", arguments_)])]
    c.

Definition ollamaBaseUrl : string := "http://localhost:11434".

(** [axios.get(url, { timeout })]: the bare client with the timeout of the
    call. *)
Definition with_timeout (ms : Z) : AxiosInstance := {|
  defaults := {| baseURL := None; timeout := Some ms; httpsAgent := None;
                 headers := []; auth := None |};
  rejected := fun e => Error (error_message e)
|}.

(** [testOllamaConnection].  The list of model names is computed for the
    log inside the [try], so what it throws is caught there too. *)
Definition testOllamaConnection : IO bool :=
  try_catch
    (response <- axios_get (with_timeout 10000) (ollamaBaseUrl ++ "/api/tags") [] ;;
     listed <- lift (get (data response) "models") ;;
     let models := logical_or listed (VArr []) in
     rows <- lift (array_of "models" models) ;;
     names <- lift (cmap (fun m => get m "name") rows) ;;
     ret true)
    (fun error => throw (Error ("Cannot connect to Ollama: " ++ message error))).

(** The prefix of [s] that ends with its last closing brace. *)
Fixpoint upto_last_close (s : string) : option string :=
  match s with
  | EmptyString => None
  | String c r =>
      match upto_last_close r with
      | Some p => Some (String c p)
      | None => if (c =? "}")%char then Some (String c EmptyString) else None
      end
  end.

(** [text.match(/\{[\s\S]*\}/)]: the match starts at the first opening
    brace and, the star being greedy over every character, ends at the
    last closing brace after it. *)
Fixpoint brace_match (text : string) : option string :=
  match text with
  | EmptyString => None
  | String c r => if (c =? "{")%char then upto_last_close text else brace_match r
  end.

Section Parser.

(** [JSON.parse], which throws on text that is not JSON. *)
Variable JSON_parse : string -> completion value.

(** The handler of the ['line'] event of the server's output. *)
Definition on_line (line : string) (c : t) : t :=
  match (response <~ JSON_parse line ;;
         id <~ get response "id" ;;
         Normal (response, id)) with
  | Normal (response, id) =>
      if has (pendingRequests c) id
      then match id with
           | VNum n =>
               {| messageId := messageId c;
                  pendingRequests := delete (pendingRequests c) n;
                  stdin := stdin c;
                  timers := timers c;
                  settled := (settled c ++ [(n, Resolved response)])%list |}
           | _ => c
           end
      else c
  | Throw _ => c
  end.

(** What can happen to a client, one at a time: a call of one of its three
    requests, a line from the server, a timer firing. *)
Inductive event :=
| Initialize
| ListTools
| CallTool (name : string) (arguments_ : value)
| Line (line : string)
| Timeout (id : Z).

Definition step (c : t) (ev : event) : t :=
  match ev with
  | Initialize => snd (initializeMCP c)
  | ListTools => snd (getAvailableTools c)
  | CallTool name arguments_ => snd (callTool name arguments_ c)
  | Line line => on_line line c
  | Timeout id => on_timeout id c
  end.

Definition run (evs : list event) : t := fold_left step evs constructor.

(** [extractJsonFromText(text)]: [null] when nothing matches or the match
    does not parse. *)
Definition extractJsonFromText (text : string) : value :=
  match brace_match text with
  | Some jsonMatch =>
      match JSON_parse jsonMatch with
      | Normal v => v
      | Throw _ => VNull
      end
  | None => VNull
  end.

End Parser.

End MCPClient.

(** ** The liveness endpoint of the HTTP variant *)

Module Endpoints.

(** The body of [GET /health]; [now] is [new Date().toISOString()]. *)
Definition health (btpService : option BTP.BTPDestinationService) (now : string) : value :=
  VObj [("status", VStr "healthy");
        ("service", VStr "BTP MCP HTTP Server");
        ("btp_connected", VBool (match btpService with Some _ => true | None => false end));
        ("timestamp", VStr now)].

End Endpoints.

(** ** Vocabulary of the statements *)

(** [p] occurs in [s] as a contiguous piece. *)
Definition occurs (p s : string) : Prop := exists a b, s = a ++ p ++ b.

Definition nonempty (search : option string) : bool :=
  match search with
  | Some s => negb (s =? "")%string
  | None => false
  end.

(** Reading a decimal numeral back. *)
Definition Number_parse (s : string) : option Z :=
  option_map Z.of_int (NilZero.int_of_string s).

(** The part of the product URL after the entity set, for a given filter
    clause. *)
Definition product_query (top skip : Z) (filter : string) : string :=
  "?$top=" ++ Number_toString top ++ "&$skip=" ++ Number_toString skip
  ++ "&$format=json" ++ filter.

(** The filter clause of the product URL: present when the search text is
    a non-empty string. *)
Definition filter_clause (search : option string) : string :=
  match search with
  | Some s =>
      if negb (s =? "")%string
      then "&$filter=contains(ProductDescription,'" ++ s ++ "')"
      else EmptyString
  | None => EmptyString
  end.

(** The characters of a decimal numeral. *)
Definition numeral_char (c : ascii) : Prop :=
  In c (list_ascii_of_string "-0123456789").

(** The URL-encoding the specification asks the query builder for:
    ECMAScript's [encodeURIComponent] on the bytes of a UTF-8 string.
    The program does not call it; it is here to state the requirement. *)
Module Reference.

Definition unreserved (c : ascii) : bool :=
  let n := N_of_ascii c in
  ((65 <=? n) && (n <=? 90) || (97 <=? n) && (n <=? 122) || (48 <=? n) && (n <=? 57)
   || existsb (N.eqb n) [45; 95; 46; 33; 126; 42; 39; 40; 41])%N.

Definition HEX (n : N) : ascii :=
  if (n <? 10)%N then ascii_of_N (48 + n) else ascii_of_N (55 + n).

Fixpoint encodeURIComponent (s : string) : string :=
  match s with
  | EmptyString => EmptyString
  | String c r =>
      (if unreserved c then String c EmptyString
       else String "%" (String (HEX (N_of_ascii c / 16))
                          (String (HEX (N_of_ascii c mod 16)) EmptyString)))
      ++ encodeURIComponent r
  end.

End Reference.

(** A process environment with the three required settings and nothing
    else, and the service built from it. *)
Definition example_env : Config.env :=
  fun key =>
    if (key =? "SAP_BASE_URL")%string then Some "https://sap.example.com"
    else if (key =? "SAP_USERNAME")%string then Some "user"
    else if (key =? "SAP_PASSWORD")%string then Some "secret"
    else None.

Definition example_service : SAPService.t := {|
  SAPService.config := Config.sap example_env;
  SAPService.axios := SAPService.createAxiosClient (Config.sap example_env)
|}.

(** A network on which every request fails without an answer. *)
Definition offline : network :=
  fun _ _ => Reject {| response := None; error_message := "connect ECONNREFUSED" |}.

(** Whether a request goes out with certificate verification: Node
    verifies unless the agent says [rejectUnauthorized: false]. *)
Definition verifies_certificate (rq : request) : bool :=
  match httpsAgent (Http.client rq) with
  | Some agent => rejectUnauthorized agent
  | None => true
  end.

(** A backend that answers every request with status 200 and the body
    [d]. *)
Definition answering (d : value) : network :=
  fun _ _ => Resolve {| status := 200; statusText := "OK"; data := d |}.

(** The row list of an envelope is empty or absent: looking at
    [d.results] first and at [value] next, the first of them that is there
    (truthy) is an empty array, or neither is there. *)
Definition no_rows (data : value) : Prop :=
  let results := opt_get (opt_get data "d") "results" in
  let v := opt_get data "value" in
  results = VArr [] \/ (truthy results = false /\ (v = VArr [] \/ truthy v = false)).


(** A test double for the service object: both list methods return the
    envelope [d] without any request. *)
Definition stub (d : value) : SAPMCPServer.sapService := {|
  SAPMCPServer.healthCheck := None;
  SAPMCPServer.getProducts := Some (fun _ _ _ => ret d);
  SAPMCPServer.get_sales_orders := Some (fun _ _ _ => ret d)
|}.

(** The envelope of the round-trip scenario. *)
Definition widget_envelope : value :=
  VObj [("value",
         VArr [VObj [("ProductID", VStr "P1");
                     ("Description", VStr "Widget");
                     ("Category", VStr "Tools")]])].

(** The text the round-trip scenario expects, with the bullet U+2022. *)
Definition widget_expected : string :=
  "Products 1 to 1:" ++ nl ++ nl ++ "• P1 - Widget (Tools)" ++ nl ++ nl
  ++ "Total: 1 products".

(** The tools of the stdio server for a service [s], and of the HTTP
    server for a platform that binds [bound]. *)
Definition sap_server (s : SAPService.t) : McpServer :=
  SAPMCPServer.constructor (SAPMCPServer.of_SAPService s).

Definition btp_server (bound : option value) : McpServer :=
  BTP.server (BTP.btpService bound).

(** What a parameter schema accepts, and what the callback then gets:
    a number in bounds, or the default when the argument is missing. *)
Definition number_with_default (lo : Z) (hi : option Z) (dflt : Z) (v : value) (n : Z)
  : Prop :=
  (v = VUndefined /\ n = dflt)
  \/ (v = VNum n /\ lo <= n /\ match hi with Some h => n <= h | None => True end).

(** A string, or nothing when the argument is missing. *)
Definition optional_string (v : value) (r : option string) : Prop :=
  (v = VUndefined /\ r = None) \/ (exists x, v = VStr x /\ r = Some x).

(** One of the listed strings. *)
Definition one_of (values : list string) (v : value) (r : string) : Prop :=
  v = VStr r /\ In r values.

(** The checks declared for the parameter [key] of a shape. *)
Fixpoint declared_checks {T} (sh : Zod.shape T) (key : string) : list Zod.check :=
  match sh with
  | Zod.SNil => []
  | Zod.SCons k s rest =>
      if (k =? key)%string then Zod.checks s else declared_checks rest key
  end.

(** Between the traces [tr] and [tr'] of a run, some request was
    rejected by the network. *)
Definition rejected_in (net : network) (tr tr' : trace) : Prop :=
  exists before rq after e,
    tr' = (tr ++ before ++ rq :: after)%list /\ net (tr ++ before)%list rq = Reject e.

(** Every request of [new], sent in this order after [tr], is answered. *)
Fixpoint all_resolved (net : network) (tr new : trace) : Prop :=
  match new with
  | [] => True
  | rq :: rest =>
      (exists r, net tr rq = Resolve r) /\ all_resolved net (tr ++ [rq])%list rest
  end.

(** What precedes the message of an error in the text of each tool.  For
    the health check it is the regular heading with the status [error]:
    the service's healthCheck catches the error and reports it as a
    status and a message. *)
Definition failure_prefix (tool_name : string) : string :=
  if (tool_name =? "sap_health_check")%string
  then "SAP Health Check:" ++ nl ++ "Status: error" ++ nl
       ++ "Message: SAP connection failed: "
  else if (tool_name =? "get_products")%string then "Error fetching products: "
  else if (tool_name =? "get_sales_orders")%string then "Error fetching sales orders: "
  else if (tool_name =? "list_destinations")%string then "❌ Error listing destinations: "
  else if (tool_name =? "query_northwind")%string then "❌ Error querying Northwind: "
  else EmptyString.

(** The outcome of a tool call that started at trace [tr]: a result with
    one text item and no throw; and when a request of the run was
    rejected, the text is the tool's failure prefix and a message. *)
Definition text_outcome (tool_name : string) (net : network) (tr : trace)
  (out : completion ToolResult * trace) : Prop :=
  exists text tr',
    out = (Normal (text_result text), tr')
    /\ (rejected_in net tr tr' -> exists m, text = failure_prefix tool_name ++ m).

(** The message an OData error body carries:
    [data?.error?.message?.value]. *)
Definition odata_message (d : value) : value :=
  opt_get (opt_get (opt_get d "error") "message") "value".

(** The request of the connection test, and of a product query. *)
Definition health_probe (s : SAPService.t) : request := {|
  method := "GET";
  url := Config.productService (SAPService.config s) ++ "/ProductSet?$top=1";
  request_headers := [];
  form := [];
  Http.client := defaults (SAPService.axios s)
|}.

Definition products_request (s : SAPService.t) (top skip : Z) (search : option string)
  : request := {|
  method := "GET";
  url := SAPService.getProducts_url s (Some top) (Some skip) search;
  request_headers := [];
  form := [];
  Http.client := defaults (SAPService.axios s)
|}.









(** What holds of a client after any sequence of events: ids are handed
    out upwards from 1; a pending request is pending once, has its timer
    set and is not settled; no request is settled twice. *)
Definition client_invariant (c : MCPClient.t) : Prop :=
  1 <= MCPClient.messageId c
  /\ NoDup (MCPClient.pendingRequests c)
  /\ (forall k, In k (MCPClient.pendingRequests c) ->
        1 <= k < MCPClient.messageId c
        /\ In k (MCPClient.timers c)
        /\ ~ In k (map fst (MCPClient.settled c)))
  /\ (forall k, In k (MCPClient.timers c) -> k < MCPClient.messageId c)
  /\ NoDup (map fst (MCPClient.settled c))
  /\ (forall k, In k (map fst (MCPClient.settled c)) -> k < MCPClient.messageId c).

(** The line of a response to request 1, and a parser for the examples
    that knows this line and the empty object. *)
Definition answer_line : string := "{" ++ dq ++ "id" ++ dq ++ ":1}".

Definition toy_parse (s : string) : completion value :=
  if (s =? "{}")%string then Normal (VObj [])
  else if (s =? answer_line)%string then Normal (VObj [("id", VNum 1)])
  else Throw (Error "Unexpected token").

(** The request of the client's connection test. *)
Definition ollama_probe : request := {|
  method := "GET";
  url := "http://localhost:11434/api/tags";
  request_headers := [];
  form := [];
  Http.client := {| baseURL := None; timeout := Some 10000; httpsAgent := None;
                    headers := []; auth := None |}
|}.

(** [Number.MAX_SAFE_INTEGER]. *)
Definition MAX_SAFE_INTEGER : Z := 2 ^ 53 - 1.

(** A row whose line the product template, or the sales-order template,
    can render: not [null] or [undefined], and with fields that convert
    to text. *)
Definition product_row (row : value) : bool :=
  negb (nullish row)
  && convertible (opt_get row "ProductID")
  && convertible (opt_get row "Description")
  && convertible (opt_get row "Category").

Definition order_row (row : value) : bool :=
  negb (nullish row)
  && convertible (opt_get row "SalesOrderID")
  && convertible (opt_get row "CustomerID")
  && convertible (opt_get row "NetAmount")
  && convertible (opt_get row "CurrencyCode").

(** ** Strings *)

Lemma chars_app (a b : string) :
  list_ascii_of_string (a ++ b) = (list_ascii_of_string a ++ list_ascii_of_string b)%list.
Proof.
  induction a as [| c a IH]; simpl; [reflexivity | now rewrite IH].
Qed.

Lemma occurs_chars (p s : string) (c : ascii) :
  occurs p s -> In c (list_ascii_of_string p) -> In c (list_ascii_of_string s).
Proof.
  intros (a & b & ->) Hc.
  rewrite !chars_app. apply in_or_app. right. apply in_or_app. now left.
Qed.

Lemma string_of_uint_chars (d : Decimal.uint) (c : ascii) :
  In c (list_ascii_of_string (NilEmpty.string_of_uint d)) -> numeral_char c.
Proof.
  unfold numeral_char.
  induction d; simpl; intros H; try contradiction;
    (destruct H as [<- | H]; [simpl; tauto | specialize (IHd H); exact IHd]).
Qed.

Lemma Number_toString_chars (n : Z) (c : ascii) :
  In c (list_ascii_of_string (Number_toString n)) -> numeral_char c.
Proof.
  unfold Number_toString, NilZero.string_of_int, NilZero.string_of_uint.
  destruct (Z.to_int n) as [d | d].
  - destruct d; try apply string_of_uint_chars.
    simpl. unfold numeral_char. simpl. tauto.
  - simpl. intros [<- | H]; [unfold numeral_char; simpl; tauto |].
    destruct d; try (revert H; apply string_of_uint_chars).
    revert H. unfold numeral_char. simpl. tauto.
Qed.

Lemma Number_parse_toString (n : Z) : Number_parse (Number_toString n) = Some n.
Proof.
  unfold Number_parse, Number_toString.
  rewrite NilZero.isi.
  - simpl. now rewrite DecimalZ.of_to.
  - destruct n; simpl; try discriminate.
    intros H. injection H as H. now apply Unsigned.to_uint_nonnil in H.
  - destruct n; simpl; try discriminate.
    intros H. injection H as H. now apply Unsigned.to_uint_nonnil in H.
Qed.

Lemma append_assoc (a b c : string) : (a ++ b) ++ c = a ++ (b ++ c).
Proof.
  induction a as [| x a IH]; simpl; [reflexivity | now rewrite IH].
Qed.

Lemma append_empty_r (a : string) : a ++ EmptyString = a.
Proof.
  induction a as [| x a IH]; simpl; [reflexivity | now rewrite IH].
Qed.

Lemma nonempty_Some (s : string) : nonempty (Some s) = true <-> s <> EmptyString.
Proof.
  simpl. destruct (String.eqb_spec s EmptyString); simpl; split; congruence.
Qed.

(** ** The query builder of [SAPService.getProducts] *)

Lemma getProducts_url_spec (this : SAPService.t) (top skip : Z) (search : option string) :
  SAPService.getProducts_url this (Some top) (Some skip) search =
  Config.productService (SAPService.config this) ++ "/ProductSet"
  ++ product_query top skip (filter_clause search).
Proof.
  unfold SAPService.getProducts_url, product_query, filter_clause.
  destruct search as [s |]; cbn [truthy].
  - destruct (negb (s =? "")%string); rewrite ?append_empty_r, !append_assoc; reflexivity.
  - cbn. rewrite ?append_empty_r, !append_assoc. reflexivity.
Qed.

Lemma no_filter_without_search (top skip : Z) :
  ~ occurs "$filter" (product_query top skip EmptyString).
Proof.
  intros H. apply occurs_chars with (c := "l"%char) in H; [| simpl; tauto].
  unfold product_query in H. rewrite !chars_app, !in_app_iff in H.
  repeat match goal with
         | H : _ \/ _ |- _ => destruct H as [H | H]
         | H : In _ (list_ascii_of_string (Number_toString _)) |- _ =>
             apply Number_toString_chars in H; unfold numeral_char in H
         end;
    simpl in H; intuition discriminate.
Qed.

Lemma filter_with_search (top skip : Z) (s : string) :
  occurs "$filter"
    (product_query top skip ("&$filter=contains(ProductDescription,'" ++ s ++ "')")).
Proof.
  exists ("?$top=" ++ Number_toString top ++ "&$skip=" ++ Number_toString skip
          ++ "&$format=json&"),
         ("=contains(ProductDescription,'" ++ s ++ "')").
  unfold product_query. rewrite !append_assoc. reflexivity.
Qed.

Lemma getProducts_trace (this : SAPService.t) (top skip : option Z) (search : option string)
  (net : network) (tr : trace) :
  snd (SAPService.getProducts this top skip search net tr) =
  (tr ++ [ {| method := "GET";
              url := SAPService.getProducts_url this top skip search;
              request_headers := [];
              form := [];
              Http.client := defaults (SAPService.axios this) |} ])%list.
Proof.
  unfold SAPService.getProducts, bind, axios_get, send, ret.
  destruct (net tr _); reflexivity.
Qed.

(** C5.  For every integer [top] from 1 to 100, every integer [skip] from
    0 to 2^53 - 1 (the integers the engine prints digit for digit) and
    whatever the optional search text, the URL built by getProducts is the
    entity-set path followed by the query string
    [?$top=<top>&$skip=<skip>&$format=json] and a filter clause; the two
    numerals read back as [top] and [skip]; the query string contains
    [$filter] exactly when the search text is present and not empty; and
    that URL is the one requested from the backend. *)
Theorem getProducts_query_top_skip_filter
  (this : SAPService.t) (top skip : Z) (search : option string)
  (net : network) (tr : trace) :
  1 <= top <= 100 ->
  0 <= skip <= MAX_SAFE_INTEGER ->
  exists filter : string,
    SAPService.getProducts_url this (Some top) (Some skip) search =
      Config.productService (SAPService.config this) ++ "/ProductSet"
      ++ product_query top skip filter
    /\ product_query top skip filter =
         "?$top=" ++ Number_toString top ++ "&$skip=" ++ Number_toString skip
         ++ "&$format=json" ++ filter
    /\ Number_parse (Number_toString top) = Some top
    /\ Number_parse (Number_toString skip) = Some skip
    /\ (occurs "$filter" (product_query top skip filter) <-> nonempty search = true)
    /\ (nonempty search = false -> filter = EmptyString)
    /\ map url (snd (SAPService.getProducts this (Some top) (Some skip) search net tr)) =
         List.app (map url tr)
           [Config.productService (SAPService.config this) ++ "/ProductSet"
            ++ product_query top skip filter].
Proof.
  intros _ _.
  exists (filter_clause search).
  split; [apply getProducts_url_spec |].
  split; [reflexivity |].
  split; [apply Number_parse_toString |].
  split; [apply Number_parse_toString |].
  split; [| split].
  - unfold filter_clause, nonempty.
    destruct search as [s |].
    + destruct (negb (s =? "")%string).
      * split; [reflexivity | intros _; apply filter_with_search].
      * split; [intros H; now apply no_filter_without_search in H | discriminate].
    + split; [intros H; now apply no_filter_without_search in H | discriminate].
  - unfold filter_clause, nonempty.
    destruct search as [s |]; [| reflexivity].
    destruct (negb (s =? "")%string); [discriminate | reflexivity].
  - rewrite getProducts_trace, map_app. simpl.
    now rewrite getProducts_url_spec.
Qed.

Lemma getProducts_query_top_skip_filter_witness :
  1 <= 5 <= 100
  /\ 0 <= 20 <= MAX_SAFE_INTEGER
  /\ SAPService.getProducts_url example_service (Some 5) (Some 20) (Some "Widget") =
       "/sap/opu/odata/sap/API_PRODUCT_SRV/ProductSet?$top=5&$skip=20&$format=json&$filter=contains(ProductDescription,'Widget')"
  /\ SAPService.getProducts_url example_service (Some 5) (Some 20) None =
       "/sap/opu/odata/sap/API_PRODUCT_SRV/ProductSet?$top=5&$skip=20&$format=json".
Proof.
  assert (B : 0 <= 20 <= MAX_SAFE_INTEGER) by (unfold MAX_SAFE_INTEGER; simpl; lia).
  split; [lia |]. split; [exact B |].
  destruct (getProducts_query_top_skip_filter example_service 5 20 (Some "Widget")
              offline [] ltac:(lia) B) as (f1 & E1 & _).
  destruct (getProducts_query_top_skip_filter example_service 5 20 None
              offline [] ltac:(lia) B) as (f2 & E2 & _).
  split; reflexivity.
Defined.

(** C3 (as the program has it).  For every non-empty search text the URL
    built by getProducts carries the text verbatim, neither URL-encoded
    nor quote-escaped, inside the filter expression
    [contains(ProductDescription,'<text>')]. *)
Theorem getProducts_filter_embeds_search_verbatim
  (this : SAPService.t) (top skip : Z) (s : string) :
  s <> EmptyString ->
  SAPService.getProducts_url this (Some top) (Some skip) (Some s) =
    Config.productService (SAPService.config this) ++ "/ProductSet"
    ++ product_query top skip ("&$filter=contains(ProductDescription,'" ++ s ++ "')")
  /\ occurs s (SAPService.getProducts_url this (Some top) (Some skip) (Some s)).
Proof.
  intros Hs. apply nonempty_Some in Hs. simpl in Hs.
  assert (E : SAPService.getProducts_url this (Some top) (Some skip) (Some s) =
              Config.productService (SAPService.config this) ++ "/ProductSet"
              ++ product_query top skip ("&$filter=contains(ProductDescription,'" ++ s ++ "')")).
  { rewrite getProducts_url_spec. unfold filter_clause. now rewrite Hs. }
  split; [exact E |].
  rewrite E.
  exists (Config.productService (SAPService.config this) ++ "/ProductSet"
          ++ "?$top=" ++ Number_toString top ++ "&$skip=" ++ Number_toString skip
          ++ "&$format=json" ++ "&$filter=contains(ProductDescription,'"),
         "')".
  unfold product_query. rewrite !append_assoc. reflexivity.
Qed.

Lemma getProducts_filter_embeds_search_verbatim_witness :
  "Widget" <> EmptyString
  /\ SAPService.getProducts_url example_service (Some 5) (Some 0) (Some "Widget") =
       "/sap/opu/odata/sap/API_PRODUCT_SRV/ProductSet?$top=5&$skip=0&$format=json&$filter=contains(ProductDescription,'Widget')".
Proof.
  split; [discriminate |].
  destruct (getProducts_filter_embeds_search_verbatim example_service 5 0 "Widget")
    as [E _]; [discriminate |].
  rewrite E. reflexivity.
Defined.

(** C3 fails as stated: for the search text [R&D 100%] the URL contains
    the text as it was given, with its [&], space and [%], and is not the
    URL with the encoded text [R%26D%20100%25]. *)
Lemma getProducts_search_not_url_encoded :
  SAPService.getProducts_url example_service (Some 10) (Some 0) (Some "R&D 100%") =
    "/sap/opu/odata/sap/API_PRODUCT_SRV/ProductSet?$top=10&$skip=0&$format=json&$filter=contains(ProductDescription,'R&D 100%')"
  /\ Reference.encodeURIComponent "R&D 100%" = "R%26D%20100%25"
  /\ SAPService.getProducts_url example_service (Some 10) (Some 0) (Some "R&D 100%") <>
       "/sap/opu/odata/sap/API_PRODUCT_SRV/ProductSet"
       ++ product_query 10 0
            ("&$filter=contains(ProductDescription,'"
             ++ Reference.encodeURIComponent "R&D 100%" ++ "')")
  /\ occurs "R&D 100%"
       (SAPService.getProducts_url example_service (Some 10) (Some 0) (Some "R&D 100%")).
Proof.
  split; [reflexivity |].
  split; [reflexivity |].
  split; [vm_compute; discriminate |].
  exists "/sap/opu/odata/sap/API_PRODUCT_SRV/ProductSet?$top=10&$skip=0&$format=json&$filter=contains(ProductDescription,'",
         "')".
  reflexivity.
Qed.

(** ** TLS posture of the backend client *)

Lemma healthCheck_trace (this : SAPService.t) (net : network) (tr : trace) :
  snd (SAPService.healthCheck this net tr) =
  (tr ++ [ {| method := "GET";
              url := Config.productService (SAPService.config this) ++ "/ProductSet?$top=1";
              request_headers := [];
              form := [];
              Http.client := defaults (SAPService.axios this) |} ])%list.
Proof.
  unfold SAPService.healthCheck, try_catch, bind, axios_get, send, ret.
  destruct (net tr _); reflexivity.
Qed.

(** C2 (as the program has it).  Whatever the process environment, the
    client that a successfully constructed SAPService uses has an HTTPS
    agent with [rejectUnauthorized: false], and every request that
    getProducts and healthCheck send goes out without certificate
    verification: no setting turns verification on. *)
Theorem SAPService_never_verifies_certificates
  (e : Config.env) (s : SAPService.t) :
  SAPService.constructor e = Normal s ->
  httpsAgent (defaults (SAPService.axios s)) =
    Some {| rejectUnauthorized := false; secureProtocol := "TLSv1_2_method" |}
  /\ (forall top skip search net tr,
        exists rq,
          snd (SAPService.getProducts s top skip search net tr) = (tr ++ [rq])%list
          /\ verifies_certificate rq = false)
  /\ (forall net tr,
        exists rq,
          snd (SAPService.healthCheck s net tr) = (tr ++ [rq])%list
          /\ verifies_certificate rq = false).
Proof.
  unfold SAPService.constructor. intros H.
  destruct (Config.validate e); simpl in H; [| discriminate].
  injection H as <-.
  split; [reflexivity |].
  split.
  - intros. eexists. split; [apply getProducts_trace | reflexivity].
  - intros. eexists. split; [apply healthCheck_trace | reflexivity].
Qed.

Lemma SAPService_never_verifies_certificates_witness :
  SAPService.constructor example_env = Normal example_service
  /\ httpsAgent (defaults (SAPService.axios example_service)) =
       Some {| rejectUnauthorized := false; secureProtocol := "TLSv1_2_method" |}.
Proof.
  split; [reflexivity |].
  exact (proj1 (SAPService_never_verifies_certificates example_env example_service eq_refl)).
Defined.

(** C2 fails as stated: in an environment that sets nothing but the three
    required values, so with every optional setting at its default, the
    service is constructed with certificate verification off, and the
    request of its health check goes out unverified. *)
Lemma tls_verification_off_by_default :
  SAPService.constructor example_env = Normal example_service
  /\ option_map rejectUnauthorized (httpsAgent (defaults (SAPService.axios example_service)))
     = Some false
  /\ map verifies_certificate (snd (SAPService.healthCheck example_service offline []))
     = [false].
Proof.
  repeat split.
Qed.

(** ** The renderers of get_products and get_sales_orders *)

Lemma cmap_total {A B} (f : A -> completion B) (l : list A) :
  Forall (fun x => exists y, f x = Normal y) l ->
  exists ys, cmap f l = Normal ys /\ List.length ys = List.length l.
Proof.
  induction 1 as [| x l [y Hy] _ (ys & Hys & Hlen)]; simpl.
  - now exists [].
  - rewrite Hy. simpl. rewrite Hys. simpl. exists (y :: ys). simpl. now rewrite Hlen.
Qed.

Lemma value_nested_ind (P : value -> Prop) :
  P VUndefined -> P VNull -> (forall b, P (VBool b)) -> (forall n, P (VNum n)) ->
  (forall x, P (VStr x)) ->
  (forall xs, Forall P xs -> P (VArr xs)) ->
  (forall props, P (VObj props)) ->
  forall v, P v.
Proof.
  intros Hu Hn Hb Hz Hs Ha Ho. fix IH 1.
  intros [| | b | n | x | xs | props];
    [apply Hu | apply Hn | apply Hb | apply Hz | apply Hs | | apply Ho].
  apply Ha. induction xs as [| a xs IHxs]; constructor; [apply IH | exact IHxs].
Qed.

Lemma ToString_or_throw_convertible (v : value) :
  convertible v = true -> ToString_or_throw v = Normal (ToString v).
Proof.
  induction v as [| | b | n | x | xs IH | props] using value_nested_ind;
    try reflexivity.
  - induction IH as [| a xs Ha _ IHxs]; [reflexivity |].
    intros C. cbn [convertible] in C. apply andb_true_iff in C. destruct C as [Ca Cxs].
    specialize (IHxs Cxs). specialize (Ha Ca).
    cbn [ToString_or_throw ToString] in *.
    destruct xs as [| b xs].
    + destruct (nullish a); [reflexivity | exact Ha].
    + rewrite IHxs. destruct (nullish a); [reflexivity |]. rewrite Ha. reflexivity.
  - cbn [convertible ToString_or_throw ToString]. intros C.
    apply negb_true_iff in C. now rewrite C.
Qed.

Lemma convertible_or (v : value) (fallback : string) :
  convertible v = true -> convertible (logical_or v (VStr fallback)) = true.
Proof. unfold logical_or. destruct (truthy v); auto. Qed.

Lemma product_line_total (row : value) :
  product_row row = true -> exists line, SAPMCPServer.product_line row = Normal line.
Proof.
  unfold product_row. rewrite !andb_true_iff, negb_true_iff.
  intros [[[N C1] C2] C3].
  unfold SAPMCPServer.product_line, get. rewrite N. cbn [cbind].
  rewrite (ToString_or_throw_convertible _ C1). cbn [cbind].
  rewrite (ToString_or_throw_convertible _ (convertible_or _ _ C2)). cbn [cbind].
  rewrite (ToString_or_throw_convertible _ (convertible_or _ _ C3)). cbn [cbind].
  eauto.
Qed.

Lemma order_line_total (row : value) :
  order_row row = true -> exists line, SAPMCPServer.order_line row = Normal line.
Proof.
  unfold order_row. rewrite !andb_true_iff, negb_true_iff.
  intros [[[[N C1] C2] C3] C4].
  unfold SAPMCPServer.order_line, get. rewrite N. cbn [cbind].
  rewrite (ToString_or_throw_convertible _ C1). cbn [cbind].
  rewrite (ToString_or_throw_convertible _ C2). cbn [cbind].
  rewrite (ToString_or_throw_convertible _ (convertible_or _ _ C3)). cbn [cbind].
  rewrite (ToString_or_throw_convertible _ (convertible_or _ _ C4)). cbn [cbind].
  eauto.
Qed.

Lemma length_not_zero {A} (l : list A) :
  l <> [] -> strict_eq_num (VNum (Z.of_nat (List.length l))) 0 = false.
Proof.
  destruct l; [congruence |]. intros _. simpl. reflexivity.
Qed.

Lemma render_products_no_rows (skip : Z) (data : value) :
  nullish data = false -> no_rows data ->
  SAPMCPServer.render_products skip data =
    Normal (text_result "No products found matching your criteria.").
Proof.
  unfold no_rows, SAPMCPServer.render_products, SAPMCPServer.product_rows, get, logical_or.
  intros Hd H. rewrite Hd. cbn [cbind].
  destruct H as [-> | [-> [-> | H]]]; cbn; try reflexivity.
  rewrite H. reflexivity.
Qed.

Lemma render_products_rows (skip : Z) (data : value) (rows : list value) :
  SAPMCPServer.product_rows data = Normal (VArr rows) ->
  rows <> [] -> Forall (fun row => product_row row = true) rows ->
  exists lines,
    cmap SAPMCPServer.product_line rows = Normal lines
    /\ List.length lines = List.length rows
    /\ SAPMCPServer.render_products skip data =
         Normal (text_result
           ("Products " ++ Number_toString (skip + 1) ++ " to "
            ++ Number_toString (skip + Z.of_nat (List.length rows))
            ++ ":" ++ nl ++ nl ++ join nl lines ++ nl ++ nl
            ++ "Total: " ++ Number_toString (Z.of_nat (List.length rows)) ++ " products")).
Proof.
  intros Hrows Hne Hall.
  destruct (cmap_total SAPMCPServer.product_line rows) as (lines & Hl & Hlen).
  { eapply Forall_impl; [| exact Hall]. apply product_line_total. }
  exists lines. split; [exact Hl |]. split; [exact Hlen |].
  unfold SAPMCPServer.render_products. rewrite Hrows. cbn [cbind get nullish opt_get].
  cbn [String.eqb Ascii.eqb Bool.eqb].
  rewrite (length_not_zero rows Hne). cbn [array_of cbind]. rewrite Hl. reflexivity.
Qed.

Lemma render_orders_rows (skip : Z) (data : value) (rows : list value) :
  SAPMCPServer.order_rows data = Normal (VArr rows) ->
  rows <> [] -> Forall (fun row => order_row row = true) rows ->
  exists lines,
    cmap SAPMCPServer.order_line rows = Normal lines
    /\ List.length lines = List.length rows
    /\ SAPMCPServer.render_orders skip data =
         Normal (text_result
           ("Sales Orders " ++ Number_toString (skip + 1) ++ " to "
            ++ Number_toString (skip + Z.of_nat (List.length rows))
            ++ ":" ++ nl ++ nl ++ join nl lines ++ nl ++ nl
            ++ "Total: " ++ Number_toString (Z.of_nat (List.length rows)) ++ " orders")).
Proof.
  intros Hrows Hne Hall.
  destruct (cmap_total SAPMCPServer.order_line rows) as (lines & Hl & Hlen).
  { eapply Forall_impl; [| exact Hall]. apply order_line_total. }
  exists lines. split; [exact Hl |]. split; [exact Hlen |].
  unfold SAPMCPServer.render_orders. rewrite Hrows. cbn [cbind get nullish opt_get].
  cbn [String.eqb Ascii.eqb Bool.eqb].
  rewrite (length_not_zero rows Hne). cbn [array_of cbind]. rewrite Hl. reflexivity.
Qed.

(** C6.  When the backend call of get_products returns an envelope whose
    row list is empty or absent (one of [{d:{results:[]}}], [{value:[]}]
    and [{}], or any envelope in which [d.results], looked at first, and
    [value], looked at next, give no row), the tool answers with the fixed
    text [No products found matching your criteria.] and with no list. *)
Theorem get_products_no_rows_fixed_message
  (sap : SAPMCPServer.sapService)
  (f : option Z -> option Z -> option string -> IO value)
  (top skip : Z) (search : option string) (data : value)
  (net : network) (tr tr' : trace) :
  SAPMCPServer.getProducts sap = Some f ->
  f (Some top) (Some skip) search net tr = (Normal data, tr') ->
  data = VObj [("d", VObj [("results", VArr [])])]
  \/ data = VObj [("value", VArr [])]
  \/ data = VObj []
  \/ (nullish data = false /\ no_rows data) ->
  SAPMCPServer.get_products_callback sap (top, (skip, (search, tt))) net tr =
    (Normal (text_result "No products found matching your criteria."), tr').
Proof.
  intros Hf Hrun Hdata.
  assert (H : nullish data = false /\ no_rows data).
  { destruct Hdata as [-> | [-> | [-> | H]]]; [| | | exact H];
      (split; [reflexivity |]); unfold no_rows; cbn; auto. }
  destruct H as [Hn Hno].
  unfold SAPMCPServer.get_products_callback, SAPMCPServer.method, try_catch, bind, lift.
  rewrite Hf, Hrun, (render_products_no_rows skip data Hn Hno). reflexivity.
Qed.

Lemma get_products_no_rows_fixed_message_witness :
  SAPMCPServer.get_products_callback (SAPMCPServer.of_SAPService example_service)
    (10, (0, (None, tt))) (answering (VObj [("value", VArr [])])) [] =
  (Normal (text_result "No products found matching your criteria."),
   [ {| method := "GET";
        url := "/sap/opu/odata/sap/API_PRODUCT_SRV/ProductSet?$top=10&$skip=0&$format=json";
        request_headers := []; form := [];
        Http.client := defaults (SAPService.axios example_service) |} ]).
Proof.
  apply (get_products_no_rows_fixed_message
           (SAPMCPServer.of_SAPService example_service)
           (SAPService.getProducts example_service)
           10 0 None (VObj [("value", VArr [])])).
  - reflexivity.
  - reflexivity.
  - right. left. reflexivity.
Defined.

(** C7 (as the program has it).  When the service call returns an
    envelope from which n >= 1 rows are extracted, each of them a row the
    line template can render (not [null] or [undefined], fields that
    convert to text), and [skip] is an integer from 0 with skip + n at
    most 2^53 - 1, the text of get_products is
    [Products <skip+1> to <skip+n>:], a blank line, n bulleted lines, a
    blank line and [Total: <n> products]; the text of get_sales_orders,
    for a service object that has the method, is the same with
    [Sales Orders] and [orders]. *)
Theorem rendered_count_and_range
  (sap : SAPMCPServer.sapService)
  (f : option Z -> option Z -> option string -> IO value)
  (top skip : Z) (opt : option string) (data : value) (rows : list value)
  (net : network) (tr tr' : trace) :
  f (Some top) (Some skip) opt net tr = (Normal data, tr') ->
  rows <> [] ->
  0 <= skip -> skip + Z.of_nat (List.length rows) <= MAX_SAFE_INTEGER ->
  (SAPMCPServer.getProducts sap = Some f ->
   SAPMCPServer.product_rows data = Normal (VArr rows) ->
   Forall (fun row => product_row row = true) rows ->
   exists lines,
     List.length lines = List.length rows
     /\ SAPMCPServer.get_products_callback sap (top, (skip, (opt, tt))) net tr =
          (Normal (text_result
             ("Products " ++ Number_toString (skip + 1) ++ " to "
              ++ Number_toString (skip + Z.of_nat (List.length rows))
              ++ ":" ++ nl ++ nl ++ join nl lines ++ nl ++ nl
              ++ "Total: " ++ Number_toString (Z.of_nat (List.length rows))
              ++ " products")), tr'))
  /\ (SAPMCPServer.get_sales_orders sap = Some f ->
      SAPMCPServer.order_rows data = Normal (VArr rows) ->
      Forall (fun row => order_row row = true) rows ->
      exists lines,
        List.length lines = List.length rows
        /\ SAPMCPServer.get_sales_orders_callback sap (top, (skip, (opt, tt))) net tr =
             (Normal (text_result
                ("Sales Orders " ++ Number_toString (skip + 1) ++ " to "
                 ++ Number_toString (skip + Z.of_nat (List.length rows))
                 ++ ":" ++ nl ++ nl ++ join nl lines ++ nl ++ nl
                 ++ "Total: " ++ Number_toString (Z.of_nat (List.length rows))
                 ++ " orders")), tr')).
Proof.
  intros Hrun Hne _ _. split; intros Hf Hrows Hall.
  - destruct (render_products_rows skip data rows Hrows Hne Hall) as (lines & _ & Hlen & Hr).
    exists lines. split; [exact Hlen |].
    unfold SAPMCPServer.get_products_callback, SAPMCPServer.method, try_catch, bind, lift.
    rewrite Hf, Hrun, Hr. reflexivity.
  - destruct (render_orders_rows skip data rows Hrows Hne Hall) as (lines & _ & Hlen & Hr).
    exists lines. split; [exact Hlen |].
    unfold SAPMCPServer.get_sales_orders_callback, SAPMCPServer.method, try_catch, bind, lift.
    rewrite Hf, Hrun, Hr. reflexivity.
Qed.

Lemma rendered_count_and_range_witness :
  let d := VObj [("d", VObj [("results",
             VArr [VObj [("ProductID", VStr "P1"); ("SalesOrderID", VNum 7)];
                   VObj [("ProductID", VStr "P2"); ("SalesOrderID", VNum 8)]])])] in
  (exists lines,
     List.length lines = 2%nat
     /\ SAPMCPServer.get_products_callback (stub d) (10, (20, (None, tt))) offline [] =
          (Normal (text_result
             ("Products 21 to 22:" ++ nl ++ nl ++ join nl lines ++ nl ++ nl
              ++ "Total: 2 products")), []))
  /\ (exists lines,
        List.length lines = 2%nat
        /\ SAPMCPServer.get_sales_orders_callback (stub d) (10, (20, (None, tt))) offline [] =
             (Normal (text_result
                ("Sales Orders 21 to 22:" ++ nl ++ nl ++ join nl lines ++ nl ++ nl
                 ++ "Total: 2 orders")), [])).
Proof.
  intros d.
  destruct (rendered_count_and_range (stub d) (fun _ _ _ => ret d) 10 20 None d
              [VObj [("ProductID", VStr "P1"); ("SalesOrderID", VNum 7)];
               VObj [("ProductID", VStr "P2"); ("SalesOrderID", VNum 8)]]
              offline [] [] eq_refl) as [Hp Ho].
  - discriminate.
  - lia.
  - unfold MAX_SAFE_INTEGER. simpl. lia.
  - split.
    + apply (Hp eq_refl eq_refl). repeat constructor.
    + apply (Ho eq_refl eq_refl). repeat constructor.
Defined.

(** C7 fails as stated: the envelope [{value:[null]}] has one extracted
    row, and the text of get_products for it is the error of reading
    [ProductID] off [null], with no count and no range; the sales-order
    renderer does the same with [SalesOrderID].  So does a row whose
    [ProductID] is an object with an own [toString] property. *)
Lemma null_row_gives_error_instead_of_count :
  SAPMCPServer.product_rows (VObj [("value", VArr [VNull])]) = Normal (VArr [VNull])
  /\ SAPMCPServer.get_products_callback (stub (VObj [("value", VArr [VNull])]))
       (10, (0, (None, tt))) offline [] =
     (Normal (text_result
        "Error fetching products: Cannot read properties of null (reading 'ProductID')"), [])
  /\ SAPMCPServer.get_sales_orders_callback (stub (VObj [("value", VArr [VNull])]))
       (10, (0, (None, tt))) offline [] =
     (Normal (text_result
        "Error fetching sales orders: Cannot read properties of null (reading 'SalesOrderID')"),
      [])
  /\ SAPMCPServer.get_products_callback
       (stub (VObj [("value", VArr [VObj [("ProductID", VObj [("toString", VNum 1)])]])]))
       (10, (0, (None, tt))) offline [] =
     (Normal (text_result
        "Error fetching products: Cannot convert object to primitive value"), []).
Proof.
  repeat split.
Qed.

(** C8.  In the round-trip scenario (backend envelope
    [{value:[{ProductID:P1, Description:Widget, Category:Tools}]}], top 5,
    skip 0) the text of get_products has the expected composition but not
    the expected bullet: where U+2022 (bytes E2 80 A2) is expected it has
    the seven bytes C3 A2 E2 82 AC C2 A2 of the source file's template, so
    it differs from the expected text. *)
Theorem get_products_round_trip_text :
  option_map (fun run => fst (run (answering widget_envelope) []))
    (call_tool (sap_server example_service) "get_products"
       (VObj [("top", VNum 5); ("skip", VNum 0)]))
  = Some (Normal (text_result
      ("Products 1 to 1:" ++ nl ++ nl ++ "â€¢ P1 - Widget (Tools)" ++ nl ++ nl
       ++ "Total: 1 products")))
  /\ list_byte_of_string SAPMCPServer.bullet =
       [Byte.xc3; Byte.xa2; Byte.xe2; Byte.x82; Byte.xac; Byte.xc2; Byte.xa2]
  /\ list_byte_of_string "•" = [Byte.xe2; Byte.x80; Byte.xa2]
  /\ "Products 1 to 1:" ++ nl ++ nl ++ "â€¢ P1 - Widget (Tools)" ++ nl ++ nl
       ++ "Total: 1 products" <> widget_expected.
Proof.
  split; [reflexivity |].
  split; [reflexivity |].
  split; [reflexivity |].
  vm_compute. discriminate.
Qed.

(** ** get_sales_orders on the SAPService of the repository *)

(** C10.  On the server built over an SAPService, every get_sales_orders
    call whose arguments the schema accepts returns the error branch, with
    the text [Error fetching sales orders: ] followed by the TypeError of
    calling the method the class does not define, and sends no request:
    the trace of requests is unchanged. *)
Theorem get_sales_orders_always_error_text
  (s : SAPService.t) (arguments : value) (run : IO ToolResult)
  (net : network) (tr : trace) :
  call_tool (sap_server s) "get_sales_orders" arguments = Some run ->
  run net tr =
    (Normal (text_result
       ("Error fetching sales orders: "
        ++ "this.sapService.get_sales_orders is not a function")), tr).
Proof.
  unfold call_tool, sap_server. cbn [find_tool find SAPMCPServer.constructor
    SAPMCPServer.registerTools SAPMCPServer.registerSalesOrderTools
    SAPMCPServer.registerProductTools SAPMCPServer.registerHealthTool tool List.app
    name String.eqb Ascii.eqb Bool.eqb].
  unfold invoke. cbn [paramsSchema callback Args].
  destruct (Zod.parse_object SAPMCPServer.get_sales_orders_schema arguments)
    as [[top [skip [customerId []]]] |]; [| discriminate].
  intros H. injection H as <-. reflexivity.
Qed.

Lemma get_sales_orders_always_error_text_witness :
  option_map (fun run => run (answering widget_envelope) [])
    (call_tool (sap_server example_service) "get_sales_orders"
       (VObj [("top", VNum 5); ("customerId", VStr "C42")]))
  = Some (Normal (text_result
            "Error fetching sales orders: this.sapService.get_sales_orders is not a function"),
          []).
Proof.
  destruct (call_tool (sap_server example_service) "get_sales_orders"
              (VObj [("top", VNum 5); ("customerId", VStr "C42")])) as [run |] eqn:E.
  - simpl. f_equal.
    exact (get_sales_orders_always_error_text example_service _ run
             (answering widget_envelope) [] E).
  - discriminate E.
Defined.

(** ** The destination service without its binding *)

Lemma getAccessToken_unbound (net : network) (tr : trace) :
  BTP.getAccessToken (BTP.constructor None) net tr =
    (Throw (Error "Destination service not available"), tr).
Proof. reflexivity. Qed.

Lemma callDestination_unbound (name : string) (entity : option string)
  (net : network) (tr : trace) :
  BTP.callDestination (BTP.constructor None) name entity net tr =
    (Throw (Error "Destination service not available"), tr).
Proof. reflexivity. Qed.

(** C4.  When the platform binds no destination service, so that the
    constructor leaves [destinationService] at [null], getAccessToken and
    callDestination throw [Destination service not available], and the
    tools list_destinations and query_northwind return that message as
    error text; in all four the trace of requests is unchanged: nothing
    was sent. *)
Theorem unbound_destination_service_no_network (net : network) (tr : trace) :
  BTP.destinationService (BTP.constructor None) = VNull
  /\ BTP.getAccessToken (BTP.constructor None) net tr =
       (Throw (Error "Destination service not available"), tr)
  /\ (forall name entity,
        BTP.callDestination (BTP.constructor None) name entity net tr =
          (Throw (Error "Destination service not available"), tr))
  /\ (forall arguments run,
        call_tool (btp_server None) "list_destinations" arguments = Some run ->
        run net tr =
          (Normal (text_result
             "❌ Error listing destinations: Destination service not available"), tr))
  /\ (forall arguments run,
        call_tool (btp_server None) "query_northwind" arguments = Some run ->
        run net tr =
          (Normal (text_result
             "❌ Error querying Northwind: Destination service not available"), tr)).
Proof.
  split; [reflexivity |].
  split; [apply getAccessToken_unbound |].
  split; [intros; apply callDestination_unbound |].
  split; intros arguments run; unfold call_tool, btp_server, invoke;
    cbn [find_tool find BTP.server tool List.app name String.eqb Ascii.eqb Bool.eqb
         paramsSchema callback Args].
  - destruct (Zod.parse_object Zod.SNil arguments) as [[] |]; [| discriminate].
    intros H. injection H as <-. reflexivity.
  - destruct (Zod.parse_object BTP.query_northwind_schema arguments)
      as [[entity [top [skip []]]] |]; [| discriminate].
    intros H. injection H as <-. reflexivity.
Qed.

Lemma unbound_destination_service_no_network_witness :
  option_map (fun run => run (answering widget_envelope) [])
    (call_tool (btp_server None) "query_northwind"
       (VObj [("entity", VStr "Products"); ("top", VNum 3)]))
  = Some (Normal (text_result
            "❌ Error querying Northwind: Destination service not available"), []).
Proof.
  destruct (call_tool (btp_server None) "query_northwind"
              (VObj [("entity", VStr "Products"); ("top", VNum 3)])) as [run |] eqn:E.
  - simpl. f_equal.
    exact (proj2 (proj2 (proj2 (proj2
             (unbound_destination_service_no_network (answering widget_envelope) []))))
             _ run E).
  - discriminate E.
Defined.

(** ** Parameter schemas *)

Lemma parse_fields_cons {A B} (key : string) (sc : Zod.schema A) (rest : Zod.shape B)
  (input : value) (a : A) (b : B) :
  Zod.parse_fields (Zod.SCons key sc rest) input = Some (a, b) <->
  Zod.parse sc (opt_get input key) = Some a /\ Zod.parse_fields rest input = Some b.
Proof.
  cbn [Zod.parse_fields].
  destruct (Zod.parse sc (opt_get input key)), (Zod.parse_fields rest input);
    split; try (intros [? ?]); try intros ?; try discriminate; try congruence.
  split; congruence.
Qed.

Lemma parse_fields_nil (input : value) (u : unit) :
  Zod.parse_fields Zod.SNil input = Some u <-> True.
Proof. destruct u. simpl. tauto. Qed.

Lemma parse_bounded_number (dflt : Z) (v : value) (n : Z) :
  1 <= dflt <= 100 ->
  Zod.parse (Zod.number .> Zod.min 1 .> Zod.max 100 .> Zod.default (VNum dflt)) v = Some n
  <-> number_with_default 1 (Some 100) dflt v n.
Proof.
  intros Hd. unfold number_with_default. cbn.
  destruct v as [| | b | k | x | xs | props]; cbn;
    try (split; [discriminate | intros [[? _] | [? _]]; discriminate]).
  - assert (E : (1 <=? dflt) && ((dflt <=? 100) && true) = true)
      by (rewrite !andb_true_iff, !Z.leb_le; lia).
    rewrite E. split.
    + intros H. injection H as H. subst. now left.
    + intros [[_ ->] | [H _]]; [reflexivity | discriminate].
  - destruct ((1 <=? k) && ((k <=? 100) && true)) eqn:E.
    + rewrite !andb_true_iff, !Z.leb_le in E. split.
      * intros H. injection H as H. subst. right. intuition.
      * intros [[H _] | [H _]]; [discriminate | injection H as H; now subst].
    + split; [discriminate |].
      intros [[H _] | [H [H1 H2]]]; [discriminate |]. injection H as H. subst.
      apply Bool.not_true_iff_false in E. exfalso. apply E.
      rewrite !andb_true_iff, !Z.leb_le. lia.
Qed.

Lemma parse_skip_number (v : value) (n : Z) :
  Zod.parse (Zod.number .> Zod.min 0 .> Zod.default (VNum 0)) v = Some n
  <-> number_with_default 0 None 0 v n.
Proof.
  unfold number_with_default. cbn.
  destruct v as [| | b | k | x | xs | props]; cbn;
    try (split; [discriminate | intros [[? _] | [? _]]; discriminate]).
  - split.
    + intros H. injection H as H. subst. now left.
    + intros [[_ ->] | [H _]]; [reflexivity | discriminate].
  - destruct ((0 <=? k) && true) eqn:E.
    + rewrite andb_true_iff, Z.leb_le in E. split.
      * intros H. injection H as H. subst. right. intuition.
      * intros [[H _] | [H _]]; [discriminate | injection H as H; now subst].
    + split; [discriminate |].
      intros [[H _] | [H [H1 _]]]; [discriminate |]. injection H as H. subst.
      apply Bool.not_true_iff_false in E. exfalso. apply E.
      rewrite andb_true_iff, Z.leb_le. lia.
Qed.

Lemma parse_optional_string (v : value) (r : option string) :
  Zod.parse (Zod.string .> Zod.optional) v = Some r <-> optional_string v r.
Proof.
  unfold optional_string. cbn.
  destruct v as [| | b | k | x | xs | props]; cbn;
    try (split; [discriminate | intros [[? _] | (y & ? & _)]; discriminate]).
  - split.
    + intros H. injection H as H. subst. now left.
    + intros [[_ ->] | (y & H & _)]; [reflexivity | discriminate].
  - split.
    + intros H. injection H as H. subst. right. eauto.
    + intros [[H _] | (y & H & ->)]; [discriminate | injection H as H; now subst].
Qed.

Lemma parse_enum (values : list string) (v : value) (r : string) :
  Zod.parse (Zod.enum values) v = Some r <-> one_of values v r.
Proof.
  unfold one_of. cbn.
  destruct v as [| | b | k | x | xs | props]; cbn;
    try (split; [discriminate | intros [? _]; discriminate]).
  destruct (existsb (String.eqb x) values) eqn:E.
  - apply existsb_exists in E. destruct E as (y & Hin & Hy).
    apply String.eqb_eq in Hy. subst y. split.
    + intros H. injection H as H. subst. auto.
    + intros [H _]. injection H as H. now subst.
  - split; [discriminate |].
    intros [H Hin]. injection H as H. subst.
    apply Bool.not_true_iff_false in E. exfalso. apply E.
    apply existsb_exists. exists r. split; [exact Hin | apply String.eqb_refl].
Qed.

Lemma parse_paged_shape (last : string) (input : value)
  (top skip : Z) (opt : option string) :
  Zod.parse_fields
    (Zod.SCons "top"
       (Zod.number .> Zod.min 1 .> Zod.max 100 .> Zod.default (VNum 10)
          .> Zod.describe "Number of records to fetch")
    (Zod.SCons "skip"
       (Zod.number .> Zod.min 0 .> Zod.default (VNum 0)
          .> Zod.describe "Number of records to skip (for pagination)")
    (Zod.SCons last (Zod.string .> Zod.optional) Zod.SNil))) input
  = Some (top, (skip, (opt, tt)))
  <-> number_with_default 1 (Some 100) 10 (opt_get input "top") top
      /\ number_with_default 0 None 0 (opt_get input "skip") skip
      /\ optional_string (opt_get input last) opt.
Proof.
  rewrite !parse_fields_cons, parse_fields_nil.
  unfold Zod.describe.
  rewrite (parse_bounded_number 10) by lia.
  rewrite parse_skip_number, parse_optional_string. tauto.
Qed.

(** C9 (as the program has it).  get_products and get_sales_orders accept
    [top] as a number from 1 to 100 with default 10 and [skip] as a number
    from 0 up with default 0; query_northwind accepts [top] as a number
    from 1 to 100 with default 5 and [skip] as an optional string with no
    default and no bound.  The number schemas declare their bounds and
    nothing else: none asks for an integer.  These are the schemas the
    tools are registered with. *)
Theorem pagination_parameters_as_declared
  (s : SAPService.t) (bound : option value) (props : list (string * value)) :
  (forall top skip search,
     Zod.parse_object SAPMCPServer.get_products_schema (VObj props)
       = Some (top, (skip, (search, tt)))
     <-> number_with_default 1 (Some 100) 10 (own props "top") top
         /\ number_with_default 0 None 0 (own props "skip") skip
         /\ optional_string (own props "search") search)
  /\ (forall top skip customerId,
        Zod.parse_object SAPMCPServer.get_sales_orders_schema (VObj props)
          = Some (top, (skip, (customerId, tt)))
        <-> number_with_default 1 (Some 100) 10 (own props "top") top
            /\ number_with_default 0 None 0 (own props "skip") skip
            /\ optional_string (own props "customerId") customerId)
  /\ (forall entity top skip,
        Zod.parse_object BTP.query_northwind_schema (VObj props)
          = Some (entity, (top, (skip, tt)))
        <-> one_of ["Products"; "Customers"; "Orders"; "Categories"; "Suppliers"]
              (own props "entity") entity
            /\ number_with_default 1 (Some 100) 5 (own props "top") top
            /\ optional_string (own props "skip") skip)
  /\ (declared_checks SAPMCPServer.get_products_schema "top" = [Zod.CMin 1; Zod.CMax 100]
      /\ declared_checks SAPMCPServer.get_products_schema "skip" = [Zod.CMin 0]
      /\ declared_checks SAPMCPServer.get_sales_orders_schema "top" = [Zod.CMin 1; Zod.CMax 100]
      /\ declared_checks SAPMCPServer.get_sales_orders_schema "skip" = [Zod.CMin 0]
      /\ declared_checks BTP.query_northwind_schema "top" = [Zod.CMin 1; Zod.CMax 100]
      /\ declared_checks BTP.query_northwind_schema "skip" = [])
  /\ (find_tool (sap_server s) "get_products" =
        Some {| name := "get_products"; description := None;
                paramsSchema := SAPMCPServer.get_products_schema;
                callback := SAPMCPServer.get_products_callback
                              (SAPMCPServer.of_SAPService s) |}
      /\ find_tool (sap_server s) "get_sales_orders" =
           Some {| name := "get_sales_orders"; description := None;
                   paramsSchema := SAPMCPServer.get_sales_orders_schema;
                   callback := SAPMCPServer.get_sales_orders_callback
                                 (SAPMCPServer.of_SAPService s) |}
      /\ find_tool (btp_server bound) "query_northwind" =
           Some {| name := "query_northwind";
                   description := Some "Query Northwind service via BTP destination";
                   paramsSchema := BTP.query_northwind_schema;
                   callback := BTP.query_northwind_callback (BTP.btpService bound) |}).
Proof.
  split; [| split; [| split; [| split]]].
  - intros. unfold Zod.parse_object, SAPMCPServer.get_products_schema, Zod.describe.
    apply (parse_paged_shape "search" (VObj props)).
  - intros. unfold Zod.parse_object, SAPMCPServer.get_sales_orders_schema, Zod.describe.
    apply (parse_paged_shape "customerId" (VObj props)).
  - intros. unfold Zod.parse_object, BTP.query_northwind_schema.
    rewrite !parse_fields_cons, parse_fields_nil, parse_enum.
    rewrite (parse_bounded_number 5) by lia.
    rewrite parse_optional_string. cbn [opt_get]. tauto.
  - repeat split.
  - repeat split.
Qed.

(** C9 fails as stated: query_northwind, called with an entity only, gets
    [top] 5 and no [skip] at all; its schema refuses the number 20 as
    [skip] and accepts the strings [-3] and [abc]. *)
Lemma query_northwind_pagination_differs :
  Zod.parse_object BTP.query_northwind_schema (VObj [("entity", VStr "Products")])
    = Some ("Products", (5, (None, tt)))
  /\ Zod.parse_object BTP.query_northwind_schema
       (VObj [("entity", VStr "Products"); ("skip", VNum 20)]) = None
  /\ Zod.parse_object BTP.query_northwind_schema
       (VObj [("entity", VStr "Products"); ("skip", VStr "-3")])
     = Some ("Products", (5, (Some "-3", tt)))
  /\ Zod.parse_object BTP.query_northwind_schema
       (VObj [("entity", VStr "Products"); ("skip", VStr "abc")])
     = Some ("Products", (5, (Some "abc", tt)))
  /\ Zod.parse_object SAPMCPServer.get_products_schema (VObj [])
     = Some (10, (0, (None, tt))).
Proof.
  repeat split.
Qed.

(** ** Every tool call ends in a text result *)

Lemma all_resolved_not_rejected (net : network) (new tr : trace) :
  all_resolved net tr new -> ~ rejected_in net tr (tr ++ new)%list.
Proof.
  revert tr. induction new as [| x rest IH]; intros tr Hall (before & rq & after & e & Heq & Hrej).
  - apply app_inv_head in Heq. destruct before; discriminate.
  - apply app_inv_head in Heq. destruct Hall as [[r Hr] Hrest].
    destruct before as [| b before].
    + simpl in Heq. injection Heq as -> _. rewrite app_nil_r in Hrej. congruence.
    + simpl in Heq. injection Heq as <- ->.
      apply (IH (tr ++ [x])%list Hrest).
      exists before, rq, after, e. split.
      * now rewrite <- !app_assoc.
      * now rewrite <- app_assoc.
Qed.

Lemma render_products_text (skip : Z) (data : value) (r : ToolResult) :
  SAPMCPServer.render_products skip data = Normal r -> exists text, r = text_result text.
Proof.
  unfold SAPMCPServer.render_products. intros H.
  repeat match type of H with
         | context [cbind ?c _] => destruct c eqn:?; cbn [cbind] in H
         | context [if ?b then _ else _] => destruct b
         end; inversion H; eauto.
Qed.

Ltac run_io :=
  unfold try_catch, bind, lift, ret, throw, axios_get, axios_post, send in *.

(** A run that ended in the [catch] of the tool. *)
Ltac caught := eexists _, _; split; [reflexivity | intros _; eexists; reflexivity].

(** A run all of whose requests were answered. *)
Ltac answered :=
  eexists _, _; split; [reflexivity |];
  let H := fresh in
  intros H; exfalso; rewrite <- ?app_assoc in H; cbn [List.app] in H;
  eapply all_resolved_not_rejected; [| exact H];
  cbn [all_resolved]; solve [eauto 10].

Lemma sap_health_check_outcome (s : SAPService.t) (net : network) (tr : trace) :
  text_outcome "sap_health_check" net tr
    (SAPMCPServer.sap_health_check_callback (SAPMCPServer.of_SAPService s) tt net tr).
Proof.
  unfold text_outcome, SAPMCPServer.sap_health_check_callback, SAPMCPServer.method.
  cbn [SAPMCPServer.of_SAPService SAPMCPServer.healthCheck].
  unfold SAPService.healthCheck. run_io.
  destruct (net tr _) eqn:E; cbn.
  - answered.
  - caught.
Qed.

Lemma get_products_outcome (s : SAPService.t) (args : Z * (Z * (option string * unit)))
  (net : network) (tr : trace) :
  text_outcome "get_products" net tr
    (SAPMCPServer.get_products_callback (SAPMCPServer.of_SAPService s) args net tr).
Proof.
  destruct args as [top [skip [search []]]].
  unfold text_outcome, SAPMCPServer.get_products_callback, SAPMCPServer.method.
  cbn [SAPMCPServer.of_SAPService SAPMCPServer.getProducts].
  unfold SAPService.getProducts. run_io.
  destruct (net tr _) eqn:E; cbn.
  - destruct (SAPMCPServer.render_products skip (data r)) as [res | e] eqn:R.
    + apply render_products_text in R. destruct R as [text ->]. answered.
    + caught.
  - caught.
Qed.

Lemma get_sales_orders_outcome (s : SAPService.t) (args : Z * (Z * (option string * unit)))
  (net : network) (tr : trace) :
  text_outcome "get_sales_orders" net tr
    (SAPMCPServer.get_sales_orders_callback (SAPMCPServer.of_SAPService s) args net tr).
Proof.
  destruct args as [top [skip [customerId []]]].
  unfold text_outcome. caught.
Qed.

Lemma list_destinations_outcome (bound : option value) (net : network) (tr : trace) :
  text_outcome "list_destinations" net tr
    (BTP.list_destinations_callback (BTP.btpService bound) tt net tr).
Proof.
  unfold text_outcome, BTP.list_destinations_callback, BTP.btpService, BTP.getAccessToken.
  destruct (negb (truthy (BTP.destinationService (BTP.constructor bound)))) eqn:B;
    run_io; [caught |].
  destruct (net tr _) as [r1 | e1] eqn:E1; cbn; [| caught].
  destruct (get (data r1) "access_token") as [token | e] eqn:T; [| caught].
  destruct (net (tr ++ [_])%list _) as [r2 | e2] eqn:E2; cbn; [| caught].
  destruct (array_of "response.data" (data r2)) as [rows | e] eqn:A; [| caught].
  destruct (cmap _ rows) as [destinations | e] eqn:D; [| caught].
  answered.
Qed.

Lemma query_northwind_outcome (bound : option value)
  (args : string * (Z * (option string * unit))) (net : network) (tr : trace) :
  text_outcome "query_northwind" net tr
    (BTP.query_northwind_callback (BTP.btpService bound) args net tr).
Proof.
  destruct args as [entity [top [skip []]]].
  unfold text_outcome, BTP.query_northwind_callback, BTP.btpService, BTP.callDestination,
    BTP.getAccessToken.
  destruct (negb (truthy (BTP.destinationService (BTP.constructor bound)))) eqn:B;
    run_io; [caught |].
  destruct (net tr _) as [r1 | e1] eqn:E1; cbn; [| caught].
  destruct (get (data r1) "access_token") as [token | e] eqn:T; [| caught].
  destruct (net (tr ++ [_])%list _) as [r2 | e2] eqn:E2; cbn; [| caught].
  destruct (get (data r2) "destinationConfiguration") as [dc | e] eqn:C; cbn; [| caught].
  destruct (get dc "URL") as [baseUrl | e] eqn:U; cbn; [| caught].
  destruct (net ((tr ++ [_]) ++ [_])%list _) as [r3 | e3] eqn:E3; cbn; [| caught].
  answered.
Qed.

(** C1.  For each of the five tools (sap_health_check, get_products and
    get_sales_orders of the stdio server over an SAPService;
    list_destinations and query_northwind of the HTTP server) and all
    arguments that its schema accepts, the callback, run on any network
    from any trace, completes normally with a result of exactly one item
    of type [text]: it never throws.  When the network rejected a request
    of the run, that text is the tool's failure prefix followed by a
    message. *)
Theorem tool_calls_return_text_results
  (s : SAPService.t) (bound : option value) (t : Tool) (arguments : value)
  (run : IO ToolResult) (net : network) (tr : trace) :
  In t (sap_server s ++ btp_server bound)%list ->
  invoke t arguments = Some run ->
  map name (sap_server s ++ btp_server bound)%list =
    ["sap_health_check"; "get_products"; "get_sales_orders";
     "list_destinations"; "query_northwind"]
  /\ exists text tr',
       run net tr = (Normal {| content := [ {| type := "text"; text := text |} ] |}, tr')
       /\ (rejected_in net tr tr' -> exists m, text = failure_prefix (name t) ++ m).
Proof.
  intros Hin Hinv. split; [reflexivity |].
  change (text_outcome (name t) net tr (run net tr)).
  unfold sap_server, btp_server in Hin.
  cbn [SAPMCPServer.constructor SAPMCPServer.registerTools
       SAPMCPServer.registerSalesOrderTools SAPMCPServer.registerProductTools
       SAPMCPServer.registerHealthTool BTP.server tool List.app In] in Hin.
  unfold invoke in Hinv.
  destruct Hin as [<- | [<- | [<- | [<- | [<- | []]]]]];
    cbn [paramsSchema callback Args name] in *;
    match type of Hinv with
    | option_map _ ?p = _ => destruct p as [a |]; [| discriminate]
    end;
    injection Hinv as <-.
  - destruct a. apply sap_health_check_outcome.
  - apply get_products_outcome.
  - apply get_sales_orders_outcome.
  - destruct a. apply list_destinations_outcome.
  - apply query_northwind_outcome.
Qed.

Lemma tool_calls_return_text_results_witness :
  exists text tr',
    SAPMCPServer.get_products_callback (SAPMCPServer.of_SAPService example_service)
      (10, (0, (None, tt))) offline [] =
      (Normal {| content := [ {| type := "text"; text := text |} ] |}, tr')
    /\ (rejected_in offline [] tr' -> exists m, text = "Error fetching products: " ++ m).
Proof.
  refine (proj2 (tool_calls_return_text_results example_service None
            {| name := "get_products"; description := None;
               paramsSchema := SAPMCPServer.get_products_schema;
               callback := SAPMCPServer.get_products_callback
                             (SAPMCPServer.of_SAPService example_service) |}
            (VObj []) _ offline [] _ _)).
  - right. left. reflexivity.
  - reflexivity.
Defined.

(** ** Configuration and construction of the service *)

Lemma validate_missing (e : Config.env) :
  Config.validate e =
    match filter (fun key => negb (Config.present e key)) Config.required with
    | [] => Normal tt
    | missing =>
        Throw (Error ("Missing required environment variables: " ++ join ", " missing))
    end.
Proof.
  unfold Config.validate.
  destruct (filter _ Config.required) as [| k r]; [reflexivity |].
  cbn [List.length]. rewrite Nat2Z.inj_succ.
  destruct (0 <? Z.succ (Z.of_nat (List.length r))) eqn:E; [reflexivity |].
  apply Z.ltb_ge in E. lia.
Qed.

Lemma filter_nil_iff {A} (f : A -> bool) (l : list A) :
  filter f l = [] <-> forall x, In x l -> f x = false.
Proof.
  induction l as [| a l IH]; simpl.
  - split; [intros _ x [] | reflexivity].
  - destruct (f a) eqn:E.
    + split; [discriminate |]. intros H. specialize (H a (or_introl eq_refl)). congruence.
    + rewrite IH. split.
      * intros H x [<- | Hx]; auto.
      * intros H x Hx. apply H. now right.
Qed.

(** X1.  Config.validate succeeds exactly when each of SAP_BASE_URL,
    SAP_USERNAME and SAP_PASSWORD is set to a non-empty value; when it
    throws, the message names the variables that are unset or empty, and
    only those. *)
Theorem validate_names_the_missing_variables (e : Config.env) :
  (Config.validate e = Normal tt
   <-> forall key, In key Config.required -> Config.present e key = true)
  /\ (forall ex, Config.validate e = Throw ex ->
        exists missing,
          missing <> []
          /\ ex = Error ("Missing required environment variables: " ++ join ", " missing)
          /\ forall key, In key missing
                         <-> In key Config.required /\ Config.present e key = false).
Proof.
  rewrite validate_missing. split.
  - destruct (filter _ Config.required) as [| k r] eqn:F.
    + split; [intros _ | reflexivity].
      intros key Hk. apply (proj1 (filter_nil_iff _ _) F) in Hk.
      now apply negb_false_iff in Hk.
    + split; [discriminate |]. intros H. exfalso.
      assert (Hin : In k (filter (fun key => negb (Config.present e key)) Config.required))
        by (rewrite F; now left).
      apply filter_In in Hin. destruct Hin as [Hk Hp].
      rewrite (H k Hk) in Hp. discriminate.
  - intros ex H.
    destruct (filter _ Config.required) as [| k r] eqn:F; [discriminate |].
    injection H as <-. exists (k :: r). split; [discriminate |]. split; [reflexivity |].
    intros key. rewrite <- F, filter_In, negb_true_iff. tauto.
Qed.

(** X2.  The two optional settings never come out empty: an unset or empty
    SAP_CLIENT gives [100] and an unset or empty SAP_PRODUCT_SERVICE gives
    the standard service path; a non-empty value is taken as it is. *)
Theorem optional_settings_default_when_empty (e : Config.env) :
  Config.client (Config.sap e) <> EmptyString
  /\ Config.productService (Config.sap e) <> EmptyString
  /\ (Config.present e "SAP_CLIENT" = false -> Config.client (Config.sap e) = "100")
  /\ (Config.present e "SAP_PRODUCT_SERVICE" = false ->
      Config.productService (Config.sap e) = "/sap/opu/odata/sap/API_PRODUCT_SRV")
  /\ (forall v, e "SAP_CLIENT" = Some v -> v <> EmptyString ->
      Config.client (Config.sap e) = v)
  /\ (forall v, e "SAP_PRODUCT_SERVICE" = Some v -> v <> EmptyString ->
      Config.productService (Config.sap e) = v).
Proof.
  unfold Config.sap, Config.or_default, Config.present. cbn [Config.client Config.productService].
  repeat split.
  - destruct (e "SAP_CLIENT") as [v |]; [| discriminate].
    destruct (String.eqb_spec v EmptyString); [discriminate | assumption].
  - destruct (e "SAP_PRODUCT_SERVICE") as [v |]; [| discriminate].
    destruct (String.eqb_spec v EmptyString); [discriminate | assumption].
  - destruct (e "SAP_CLIENT") as [v |]; [| reflexivity].
    destruct (v =? "")%string; [reflexivity | discriminate].
  - destruct (e "SAP_PRODUCT_SERVICE") as [v |]; [| reflexivity].
    destruct (v =? "")%string; [reflexivity | discriminate].
  - intros v -> Hv. destruct (String.eqb_spec v EmptyString); congruence.
  - intros v -> Hv. destruct (String.eqb_spec v EmptyString); congruence.
Qed.

Lemma present_Some (e : Config.env) (key : string) :
  Config.present e key = true -> exists v, e key = Some v /\ v <> EmptyString.
Proof.
  unfold Config.present. destruct (e key) as [v |]; [| discriminate].
  destruct (String.eqb_spec v EmptyString); [discriminate |]. eauto.
Qed.

(** X3.  A service is constructed exactly when the three required
    variables are set and non-empty, and then its client has the base URL,
    user name and password of the environment (basic authentication), a
    timeout of 30000 ms and the two JSON headers; every request of
    getProducts and healthCheck is sent with these defaults. *)
Theorem constructed_service_authenticates (e : Config.env) :
  ((exists s, SAPService.constructor e = Normal s)
   <-> forall key, In key Config.required -> Config.present e key = true)
  /\ (forall s, SAPService.constructor e = Normal s ->
        exists base user pass,
          e "SAP_BASE_URL" = Some base /\ base <> EmptyString
          /\ e "SAP_USERNAME" = Some user /\ user <> EmptyString
          /\ e "SAP_PASSWORD" = Some pass /\ pass <> EmptyString
          /\ defaults (SAPService.axios s) =
               {| baseURL := Some base;
                  timeout := Some 30000;
                  httpsAgent := Some {| rejectUnauthorized := false;
                                        secureProtocol := "TLSv1_2_method" |};
                  headers := [("Content-Type", "application/json");
                              ("X-Requested-With", "XMLHttpRequest")];
                  auth := Some (Some user, Some pass) |}
          /\ (forall top skip search net tr,
                snd (SAPService.getProducts s (Some top) (Some skip) search net tr) =
                  (tr ++ [products_request s top skip search])%list)
          /\ (forall net tr,
                snd (SAPService.healthCheck s net tr) = (tr ++ [health_probe s])%list)).
Proof.
  unfold SAPService.constructor. split.
  - split.
    + intros [s H]. destruct (Config.validate e) as [[] | ex] eqn:V; [| discriminate].
      rewrite validate_missing in V.
      destruct (filter _ Config.required) as [| k r] eqn:F; [| discriminate].
      intros key Hk. apply (proj1 (filter_nil_iff _ _) F) in Hk.
      now apply negb_false_iff in Hk.
    + intros H. rewrite validate_missing.
      assert (F : filter (fun key => negb (Config.present e key)) Config.required = []).
      { apply filter_nil_iff. intros x Hx. rewrite (H x Hx). reflexivity. }
      rewrite F. cbn. eauto.
  - intros s H. destruct (Config.validate e) as [[] | ex] eqn:V; [| discriminate].
    cbn in H. injection H as <-.
    rewrite validate_missing in V.
    destruct (filter _ Config.required) as [| k r] eqn:F; [| discriminate].
    pose proof (proj1 (filter_nil_iff _ _) F) as P.
    destruct (present_Some e "SAP_BASE_URL") as (base & Hb & Hbn).
    { apply negb_false_iff, P. simpl. tauto. }
    destruct (present_Some e "SAP_USERNAME") as (user & Hu & Hun).
    { apply negb_false_iff, P. simpl. tauto. }
    destruct (present_Some e "SAP_PASSWORD") as (pass & Hp & Hpn).
    { apply negb_false_iff, P. simpl. tauto. }
    exists base, user, pass.
    repeat (split; [assumption |]).
    split.
    { unfold SAPService.createAxiosClient, Config.sap. cbn. now rewrite Hb, Hu, Hp. }
    split; intros.
    + apply getProducts_trace.
    + apply healthCheck_trace.
Qed.

Lemma constructor_inv (e : Config.env) (s : SAPService.t) :
  SAPService.constructor e = Normal s ->
  Config.validate e = Normal tt
  /\ s = {| SAPService.config := Config.sap e;
            SAPService.axios := SAPService.createAxiosClient (Config.sap e) |}.
Proof.
  unfold SAPService.constructor.
  destruct (Config.validate e) as [[] | ex]; [| discriminate].
  cbn. intros H. injection H as <-. auto.
Qed.

(** ** Errors of the backend client *)

Lemma formatError_odata (error : AxiosError) (r : AxiosResponse) (s : string) :
  response error = Some r -> odata_message (data r) = VStr s -> s <> EmptyString ->
  message (SAPService.formatError error) = s.
Proof.
  unfold SAPService.formatError, odata_message, logical_or.
  intros -> -> Hs. cbn [truthy].
  destruct (String.eqb_spec s EmptyString); [contradiction | reflexivity].
Qed.

(** X4.  formatError prefers the message of the backend: with an OData
    error body whose [error.message.value] is a non-empty string, that
    string is the message; with an answer that carries no such value it is
    [SAP API Error: <status> <statusText> - <transport message>]; and with
    no answer at all (network failure, timeout) status and status text
    read [undefined]. *)
Theorem formatError_prefers_backend_message (error : AxiosError) :
  (response error = None ->
   message (SAPService.formatError error) =
     "SAP API Error: undefined undefined - " ++ error_message error)
  /\ (forall r s, response error = Some r ->
        odata_message (data r) = VStr s -> s <> EmptyString ->
        message (SAPService.formatError error) = s)
  /\ (forall r, response error = Some r ->
        truthy (odata_message (data r)) = false ->
        message (SAPService.formatError error) =
          "SAP API Error: " ++ Number_toString (Http.status r) ++ " " ++ Http.statusText r
          ++ " - " ++ error_message error).
Proof.
  unfold SAPService.formatError, odata_message, logical_or.
  split; [| split].
  - intros ->. reflexivity.
  - intros r s. apply formatError_odata.
  - intros r -> ->. reflexivity.
Qed.

(** X5.  healthCheck never throws and sends exactly one request, for one
    record of the product set: an answer gives the status [connected], a
    rejection gives the status [error] with the message
    [SAP connection failed: ] and the message of the formatted error. *)
Theorem healthCheck_never_throws (s : SAPService.t) (net : network) (tr : trace) :
  exists health,
    SAPService.healthCheck s net tr = (Normal health, (tr ++ [health_probe s])%list)
    /\ ((exists r, net tr (health_probe s) = Resolve r)
         /\ health = VObj [("status", VStr "connected");
                           ("message", VStr "Successfully connected to SAP")]
        \/ (exists err, net tr (health_probe s) = Reject err
             /\ health = VObj [("status", VStr "error");
                               ("message",
                                VStr ("SAP connection failed: "
                                      ++ message (rejected (SAPService.axios s) err)))])).
Proof.
  unfold SAPService.healthCheck, try_catch, bind, axios_get, send, ret.
  fold (health_probe s).
  destruct (net tr (health_probe s)) as [r | err] eqn:E.
  - eexists. split; [reflexivity |]. left. eauto.
  - eexists. split; [reflexivity |]. right. eauto.
Qed.

(** X6.  A get_products call on a constructed service sends exactly one
    request, whose URL is built from the validated arguments (10 and 0
    where [top] and [skip] are missing).  When the backend rejects it the
    text is [Error fetching products: ] followed by the message of
    formatError, hence the backend's own message when the error body has
    one; when the backend answers, the text is what the renderer makes of
    the body, or the error text for what the renderer throws. *)
Theorem get_products_call_sends_one_request
  (e : Config.env) (s : SAPService.t) (props : list (string * value))
  (run : IO ToolResult) (net : network) (tr : trace) :
  SAPService.constructor e = Normal s ->
  call_tool (sap_server s) "get_products" (VObj props) = Some run ->
  exists top skip search,
    Zod.parse_object SAPMCPServer.get_products_schema (VObj props)
      = Some (top, (skip, (search, tt)))
    /\ number_with_default 1 (Some 100) 10 (own props "top") top
    /\ number_with_default 0 None 0 (own props "skip") skip
    /\ snd (run net tr) = (tr ++ [products_request s top skip search])%list
    /\ (forall err, net tr (products_request s top skip search) = Reject err ->
          fst (run net tr) =
            Normal (text_result ("Error fetching products: "
                                 ++ message (SAPService.formatError err))))
    /\ (forall err r msg, net tr (products_request s top skip search) = Reject err ->
          response err = Some r -> odata_message (data r) = VStr msg ->
          msg <> EmptyString ->
          fst (run net tr) = Normal (text_result ("Error fetching products: " ++ msg)))
    /\ (forall r, net tr (products_request s top skip search) = Resolve r ->
          fst (run net tr) =
            match SAPMCPServer.render_products skip (data r) with
            | Normal result => Normal result
            | Throw ex => Normal (text_result ("Error fetching products: " ++ message ex))
            end).
Proof.
  intros Hc. apply constructor_inv in Hc. destruct Hc as [_ ->].
  unfold call_tool, sap_server.
  cbn [find_tool find SAPMCPServer.constructor SAPMCPServer.registerTools
       SAPMCPServer.registerSalesOrderTools SAPMCPServer.registerProductTools
       SAPMCPServer.registerHealthTool tool List.app name String.eqb Ascii.eqb Bool.eqb].
  unfold invoke. cbn [paramsSchema callback Args].
  destruct (Zod.parse_object SAPMCPServer.get_products_schema (VObj props))
    as [[top [skip [search []]]] |] eqn:P; [| discriminate].
  intros H. injection H as <-.
  exists top, skip, search. split; [reflexivity |].
  pose proof P as P'.
  unfold Zod.parse_object, SAPMCPServer.get_products_schema, Zod.describe in P'.
  apply (parse_paged_shape "search" (VObj props)) in P'. cbn [opt_get] in P'.
  destruct P' as (Ht & Hs & _).
  split; [exact Ht |]. split; [exact Hs |].
  unfold SAPMCPServer.get_products_callback, SAPMCPServer.method.
  cbn [SAPMCPServer.of_SAPService SAPMCPServer.getProducts].
  unfold SAPService.getProducts. run_io.
  match goal with |- context [net tr ?rq] => change rq with
    (products_request
       {| SAPService.config := Config.sap e;
          SAPService.axios := SAPService.createAxiosClient (Config.sap e) |}
       top skip search) end.
  set (rq := products_request _ top skip search).
  destruct (net tr rq) as [r | err] eqn:E.
  - split; [destruct (SAPMCPServer.render_products skip (data r)); reflexivity |].
    split; [discriminate |]. split; [discriminate |].
    intros r' H. injection H as <-.
    destruct (SAPMCPServer.render_products skip (data r)); reflexivity.
  - split; [reflexivity |].
    split; [intros err' H; injection H as <-; reflexivity |].
    split; [| discriminate].
    intros err' r msg H Hr Hm Hne. injection H as <-.
    rewrite <- (formatError_odata err r msg Hr Hm Hne). reflexivity.
Qed.

Lemma get_products_call_sends_one_request_witness :
  SAPService.constructor example_env = Normal example_service
  /\ exists top skip search,
       snd (SAPMCPServer.get_products_callback (SAPMCPServer.of_SAPService example_service)
              (10, (0, (None, tt))) offline [])
       = [products_request example_service top skip search].
Proof.
  split; [reflexivity |].
  destruct (get_products_call_sends_one_request example_env example_service []
              (SAPMCPServer.get_products_callback
                 (SAPMCPServer.of_SAPService example_service) (10, (0, (None, tt))))
              offline [] eq_refl eq_refl)
    as (top & skip & search & _ & _ & _ & H & _).
  exists top, skip, search. exact H.
Defined.

(** X7.  main never throws.  When a required variable is missing it ends
    the process with exit code 1 before any request is sent and before
    the server is connected; otherwise it sends the one request of the
    connection test and, whatever the backend answers, connects the server
    with its three tools, ending with exit code 1 only when connecting
    throws. *)
Theorem main_starts_whatever_the_backend_answers
  (connect : McpServer -> completion unit) (e : Config.env)
  (net : network) (tr : trace) :
  (forall ex, Config.validate e = Throw ex ->
     Index.main connect e net tr = (Normal (Index.Exited 1), tr))
  /\ (Config.validate e = Normal tt ->
      exists s,
        SAPService.constructor e = Normal s
        /\ Index.main connect e net tr =
             (Normal (match connect (sap_server s) with
                      | Normal _ => Index.Serving (sap_server s)
                      | Throw _ => Index.Exited 1
                      end),
              (tr ++ [health_probe s])%list)
        /\ map name (sap_server s) =
             ["sap_health_check"; "get_products"; "get_sales_orders"])
  /\ (exists how tr', Index.main connect e net tr = (Normal how, tr')).
Proof.
  assert (A : forall ex, Config.validate e = Throw ex ->
                Index.main connect e net tr = (Normal (Index.Exited 1), tr)).
  { intros ex H. unfold Index.main, SAPService.constructor. rewrite H. reflexivity. }
  assert (B : Config.validate e = Normal tt ->
              exists s,
                SAPService.constructor e = Normal s
                /\ Index.main connect e net tr =
                     (Normal (match connect (sap_server s) with
                              | Normal _ => Index.Serving (sap_server s)
                              | Throw _ => Index.Exited 1
                              end),
                      (tr ++ [health_probe s])%list)
                /\ map name (sap_server s) =
                     ["sap_health_check"; "get_products"; "get_sales_orders"]).
  { intros H. unfold Index.main, SAPService.constructor. rewrite H. cbn [cbind].
    eexists. split; [reflexivity |]. split; [| reflexivity].
    unfold try_catch, bind at 1, lift at 1, bind at 1.
    unfold SAPService.healthCheck, try_catch, bind at 1, axios_get, send, ret.
    unfold sap_server, SAPMCPServer.start, bind, lift, ret.
    match goal with |- context [net tr ?rq] => destruct (net tr rq) end;
      match goal with |- context [connect ?srv] => destruct (connect srv) end;
      reflexivity. }
  split; [exact A |]. split; [exact B |].
  destruct (Config.validate e) as [[] | ex] eqn:V.
  - destruct (B eq_refl) as (s & _ & H & _). rewrite H. eauto.
  - rewrite (A ex eq_refl). eauto.
Qed.

Lemma main_starts_whatever_the_backend_answers_witness :
  exists s,
    SAPService.constructor example_env = Normal s
    /\ Index.main (fun _ => Normal tt) example_env offline [] =
         (Normal (Index.Serving (sap_server s)), [health_probe s])
    /\ map name (sap_server s) = ["sap_health_check"; "get_products"; "get_sales_orders"].
Proof.
  exact (proj1 (proj2 (main_starts_whatever_the_backend_answers
                         (fun _ => Normal tt) example_env offline [])) eq_refl).
Defined.

(** ** The destination service with its binding *)
















(** ** Rows the renderers cannot read *)

Lemma cmap_stops {A B} (f : A -> completion B) (before : list A) (x : A)
  (after : list A) (ex : exn) :
  Forall (fun a => exists y, f a = Normal y) before ->
  f x = Throw ex ->
  cmap f (before ++ x :: after) = Throw ex.
Proof.
  intros Hb Hx. induction Hb as [| a before [y Hy] _ IH]; cbn [List.app cmap].
  - now rewrite Hx.
  - rewrite Hy. cbn [cbind]. now rewrite IH.
Qed.

(** X13.  When the first extracted product row that cannot be rendered is
    [null] or [undefined] (the rows before it all render), get_products
    shows no list at all, not even those rows: its text is
    [Error fetching products: ] with the TypeError of reading [ProductID]
    off that row. *)
Theorem null_row_replaces_the_list_by_an_error
  (sap : SAPMCPServer.sapService)
  (f : option Z -> option Z -> option string -> IO value)
  (top skip : Z) (search : option string) (data : value)
  (before : list value) (v : value) (after : list value)
  (net : network) (tr tr' : trace) :
  SAPMCPServer.getProducts sap = Some f ->
  f (Some top) (Some skip) search net tr = (Normal data, tr') ->
  SAPMCPServer.product_rows data = Normal (VArr (before ++ v :: after)) ->
  Forall (fun row => product_row row = true) before ->
  nullish v = true ->
  SAPMCPServer.get_products_callback sap (top, (skip, (search, tt))) net tr =
    (Normal (text_result
       ("Error fetching products: Cannot read properties of " ++ ToString v
        ++ " (reading 'ProductID')")), tr').
Proof.
  intros Hf Hrun Hrows Hbefore Hv.
  assert (Hc : cmap SAPMCPServer.product_line (before ++ v :: after) =
               Throw (TypeError ("Cannot read properties of " ++ ToString v
                                 ++ " (reading 'ProductID')"))).
  { apply cmap_stops.
    - eapply Forall_impl; [| exact Hbefore]. apply product_line_total.
    - unfold SAPMCPServer.product_line, get. now rewrite Hv. }
  unfold SAPMCPServer.get_products_callback, SAPMCPServer.method, try_catch, bind, lift.
  rewrite Hf, Hrun. unfold SAPMCPServer.render_products. rewrite Hrows.
  cbn [cbind get nullish opt_get]. cbn [String.eqb Ascii.eqb Bool.eqb].
  rewrite length_not_zero by (destruct before; discriminate).
  cbn [array_of cbind]. rewrite Hc. reflexivity.
Qed.

Lemma null_row_replaces_the_list_by_an_error_witness :
  SAPMCPServer.get_products_callback
    (stub (VObj [("value", VArr [VObj [("ProductID", VStr "P1")]; VNull])]))
    (10, (0, (None, tt))) offline [] =
  (Normal (text_result
     "Error fetching products: Cannot read properties of null (reading 'ProductID')"), []).
Proof.
  exact (null_row_replaces_the_list_by_an_error
           (stub (VObj [("value", VArr [VObj [("ProductID", VStr "P1")]; VNull])]))
           (fun _ _ _ => ret (VObj [("value", VArr [VObj [("ProductID", VStr "P1")]; VNull])]))
           10 0 None _ [VObj [("ProductID", VStr "P1")]] VNull [] offline [] []
           eq_refl eq_refl eq_refl
           (Forall_cons (P := fun row => product_row row = true)
              (VObj [("ProductID", VStr "P1")]) (eq_refl true) (Forall_nil _))
           eq_refl).
Defined.

(** X14.  The two row extractions give the same result on every body but
    [null] and [undefined]; on those both throw, the product one reading
    [d] and the sales-order one, whose first step is guarded, reading
    [value]. *)
Theorem product_and_order_rows_agree (data : value) :
  (nullish data = false ->
   SAPMCPServer.product_rows data = SAPMCPServer.order_rows data)
  /\ (nullish data = true ->
      SAPMCPServer.product_rows data =
        Throw (TypeError ("Cannot read properties of " ++ ToString data ++ " (reading 'd')"))
      /\ SAPMCPServer.order_rows data =
           Throw (TypeError ("Cannot read properties of " ++ ToString data
                             ++ " (reading 'value')"))).
Proof.
  unfold SAPMCPServer.product_rows, SAPMCPServer.order_rows, get. split; intros H; rewrite H.
  - reflexivity.
  - destruct data; try discriminate; split; reflexivity.
Qed.

(** ** Arguments the schemas refuse *)

Lemma paged_shape_refuses (last : string) (props : list (string * value)) :
  (exists n, own props "top" = VNum n /\ (n < 1 \/ 100 < n))
  \/ (exists n, own props "skip" = VNum n /\ n < 0) ->
  Zod.parse_fields
    (Zod.SCons "top"
       (Zod.number .> Zod.min 1 .> Zod.max 100 .> Zod.default (VNum 10)
          .> Zod.describe "Number of records to fetch")
    (Zod.SCons "skip"
       (Zod.number .> Zod.min 0 .> Zod.default (VNum 0)
          .> Zod.describe "Number of records to skip (for pagination)")
    (Zod.SCons last (Zod.string .> Zod.optional) Zod.SNil))) (VObj props)
  = None.
Proof.
  intros H.
  destruct (Zod.parse_fields _ (VObj props)) as [[top [skip [opt []]]] |] eqn:P;
    [| reflexivity].
  exfalso. apply (parse_paged_shape last (VObj props)) in P. cbn [opt_get] in P.
  destruct P as (Ht & Hs & _). unfold number_with_default in Ht, Hs.
  destruct H as [(n & Hn & Hr) | (n & Hn & Hr)].
  - rewrite Hn in Ht. destruct Ht as [[Hu _] | (Hv & H1 & H2)]; [discriminate |].
    injection Hv as <-. lia.
  - rewrite Hn in Hs. destruct Hs as [[Hu _] | (Hv & H1 & _)]; [discriminate |].
    injection Hv as <-. lia.
Qed.

(** X15.  A call whose [top] is a number below 1 or above 100 never
    reaches the callback of get_products, get_sales_orders or
    query_northwind, and one whose [skip] is a negative number never
    reaches the callback of get_products or get_sales_orders: the schema
    refuses the arguments first. *)
Theorem out_of_range_arguments_never_reach_the_callback
  (s : SAPService.t) (bound : option value) (props : list (string * value)) (n : Z) :
  (own props "top" = VNum n -> n < 1 \/ 100 < n ->
   call_tool (sap_server s) "get_products" (VObj props) = None
   /\ call_tool (sap_server s) "get_sales_orders" (VObj props) = None
   /\ call_tool (btp_server bound) "query_northwind" (VObj props) = None)
  /\ (own props "skip" = VNum n -> n < 0 ->
      call_tool (sap_server s) "get_products" (VObj props) = None
      /\ call_tool (sap_server s) "get_sales_orders" (VObj props) = None).
Proof.
  unfold call_tool, sap_server, btp_server, invoke.
  cbn [find_tool find SAPMCPServer.constructor SAPMCPServer.registerTools
       SAPMCPServer.registerSalesOrderTools SAPMCPServer.registerProductTools
       SAPMCPServer.registerHealthTool BTP.server tool List.app name
       String.eqb Ascii.eqb Bool.eqb paramsSchema callback Args].
  unfold Zod.parse_object, SAPMCPServer.get_products_schema,
    SAPMCPServer.get_sales_orders_schema.
  split.
  - intros Hn Hr.
    rewrite !paged_shape_refuses by (left; eauto).
    split; [reflexivity |]. split; [reflexivity |].
    destruct (Zod.parse_fields BTP.query_northwind_schema (VObj props))
      as [[entity [top [skip []]]] |] eqn:P; [| reflexivity].
    exfalso. unfold BTP.query_northwind_schema in P.
    rewrite !parse_fields_cons in P. destruct P as (_ & Ht & _).
    apply (parse_bounded_number 5) in Ht; [| lia].
    cbn [opt_get] in Ht. rewrite Hn in Ht.
    destruct Ht as [[Hu _] | (Hv & H1 & H2)]; [discriminate |].
    injection Hv as <-. lia.
  - intros Hn Hr.
    rewrite !paged_shape_refuses by (right; eauto). split; reflexivity.
Qed.

Lemma out_of_range_arguments_never_reach_the_callback_witness :
  call_tool (sap_server example_service) "get_products" (VObj [("top", VNum 101)]) = None
  /\ call_tool (sap_server example_service) "get_sales_orders" (VObj [("top", VNum 101)]) = None
  /\ call_tool (btp_server None) "query_northwind" (VObj [("top", VNum 101)]) = None.
Proof.
  apply (proj1 (out_of_range_arguments_never_reach_the_callback example_service None
                  [("top", VNum 101)] 101)).
  - reflexivity.
  - right. lia.
Defined.

(** ** The client: picking the JSON out of a model's answer *)

Lemma no_close_brace (s : string) :
  MCPClient.upto_last_close s = None <-> ~ In "}"%char (list_ascii_of_string s).
Proof.
  induction s as [| c r IH]; simpl.
  - tauto.
  - destruct (MCPClient.upto_last_close r) as [p |].
    + split; [discriminate |]. intros H. exfalso.
      assert (N : ~ In "}"%char (list_ascii_of_string r)) by tauto.
      apply IH in N. discriminate.
    + destruct (Ascii.eqb_spec c "}"%char) as [-> | Hc].
      * split; [discriminate | tauto].
      * split; [| reflexivity]. intros _ [H | H]; [congruence |].
        now apply (proj1 IH).
Qed.

Lemma upto_last_close_app (q post : string) :
  ~ In "}"%char (list_ascii_of_string post) ->
  MCPClient.upto_last_close (q ++ "}" ++ post) = Some (q ++ "}").
Proof.
  intros Hp. induction q as [| c q IH]; simpl.
  - now rewrite (proj2 (no_close_brace post) Hp).
  - simpl in IH. now rewrite IH.
Qed.

Lemma upto_last_close_Some (s p : string) :
  MCPClient.upto_last_close s = Some p ->
  exists q post, p = q ++ "}" /\ s = p ++ post.
Proof.
  revert p. induction s as [| c r IH]; simpl; intros p H; [discriminate |].
  destruct (MCPClient.upto_last_close r) as [p' |].
  - injection H as <-. destruct (IH p' eq_refl) as (q & post & -> & ->).
    exists (String c q), post. split; reflexivity.
  - destruct (Ascii.eqb_spec c "}"%char) as [-> | Hc]; [| discriminate].
    injection H as <-. exists EmptyString, r. split; reflexivity.
Qed.

Lemma brace_match_decomposed (pre mid post : string) :
  ~ In "{"%char (list_ascii_of_string pre) ->
  ~ In "}"%char (list_ascii_of_string post) ->
  MCPClient.brace_match (pre ++ "{" ++ mid ++ "}" ++ post) = Some ("{" ++ mid ++ "}").
Proof.
  intros Hpre Hpost. induction pre as [| c pre IH].
  - cbn [append MCPClient.brace_match Ascii.eqb Bool.eqb].
    exact (upto_last_close_app (String "{" mid) post Hpost).
  - cbn [append MCPClient.brace_match].
    destruct (Ascii.eqb_spec c "{"%char) as [-> | Hc].
    + exfalso. apply Hpre. now left.
    + apply IH. intros H. apply Hpre. now right.
Qed.

Lemma brace_match_Some (text m : string) :
  MCPClient.brace_match text = Some m ->
  exists pre mid post, text = pre ++ "{" ++ mid ++ "}" ++ post.
Proof.
  induction text as [| c r IH]; [discriminate |].
  cbn [MCPClient.brace_match].
  destruct (Ascii.eqb_spec c "{"%char) as [-> | Hc].
  - intros H. apply upto_last_close_Some in H. destruct H as (q & post & -> & H).
    destruct q as [| c' q].
    + discriminate H.
    + injection H as <- H. exists EmptyString, q, post.
      cbn [append]. rewrite H, append_assoc. reflexivity.
  - intros H. destruct (IH H) as (pre & mid & post & ->).
    exists (String c pre), mid, post. reflexivity.
Qed.

(** X16.  extractJsonFromText hands the parser the piece of the text from
    its first opening brace to its last closing brace and returns what the
    parser gives, [null] when the parser throws; when the text has no
    opening brace with a closing brace after it, the result is [null] and
    the parser is not consulted.  It never throws. *)
Theorem extractJsonFromText_takes_outermost_braces
  (JSON_parse : string -> completion value) (text : string) :
  (forall pre mid post,
     text = pre ++ "{" ++ mid ++ "}" ++ post ->
     ~ In "{"%char (list_ascii_of_string pre) ->
     ~ In "}"%char (list_ascii_of_string post) ->
     MCPClient.extractJsonFromText JSON_parse text =
       match JSON_parse ("{" ++ mid ++ "}") with
       | Normal v => v
       | Throw _ => VNull
       end)
  /\ ((forall a b c, text <> a ++ "{" ++ b ++ "}" ++ c) ->
      forall parse, MCPClient.extractJsonFromText parse text = VNull).
Proof.
  split.
  - intros pre mid post -> Hpre Hpost. unfold MCPClient.extractJsonFromText.
    now rewrite (brace_match_decomposed pre mid post Hpre Hpost).
  - intros H parse. unfold MCPClient.extractJsonFromText.
    destruct (MCPClient.brace_match text) as [m |] eqn:E; [| reflexivity].
    apply brace_match_Some in E. destruct E as (pre & mid & post & E).
    now apply H in E.
Qed.

Lemma extractJsonFromText_takes_outermost_braces_witness :
  MCPClient.extractJsonFromText toy_parse "Use this: {} (no arguments)" = VObj [].
Proof.
  exact (proj1 (extractJsonFromText_takes_outermost_braces toy_parse
                  "Use this: {} (no arguments)")
           "Use this: " EmptyString " (no arguments)" eq_refl
           ltac:(simpl; intuition discriminate) ltac:(simpl; intuition discriminate)).
Defined.

(** ** The client: requests, responses and timers *)

Lemma existsb_Zeqb (n : Z) (l : list Z) : existsb (Z.eqb n) l = true <-> In n l.
Proof.
  rewrite existsb_exists. split.
  - intros (x & Hx & E). apply Z.eqb_eq in E. now subst.
  - intros H. exists n. split; [exact H | apply Z.eqb_refl].
Qed.

Lemma delete_In (l : list Z) (n k : Z) :
  In k (MCPClient.delete l n) <-> In k l /\ k <> n.
Proof.
  unfold MCPClient.delete. rewrite filter_In, negb_true_iff, Z.eqb_neq. tauto.
Qed.

Lemma delete_NoDup (l : list Z) (n : Z) : NoDup l -> NoDup (MCPClient.delete l n).
Proof. apply NoDup_filter. Qed.

Lemma set_fresh (l : list Z) (n : Z) : ~ In n l -> MCPClient.set l n = (l ++ [n])%list.
Proof.
  intros H. unfold MCPClient.set.
  destruct (existsb (Z.eqb n) l) eqn:E; [| reflexivity].
  apply existsb_Zeqb in E. contradiction.
Qed.

Lemma NoDup_snoc {A} (l : list A) (x : A) : NoDup l -> ~ In x l -> NoDup (l ++ [x]).
Proof.
  induction l as [| a l IH]; intros Hl Hx; simpl.
  - constructor; [intros [] | constructor].
  - inversion Hl as [| ? ? Ha Hl']; subst. constructor.
    + intros H. apply in_app_or in H. destruct H as [H | [H | []]]; [contradiction |].
      subst. apply Hx. now left.
    + apply IH; [exact Hl' |]. intros H. apply Hx. now right.
Qed.

Lemma invariant_sendMCPMessage (message : list (string * value)) (c : MCPClient.t) :
  client_invariant c -> client_invariant (snd (MCPClient.sendMCPMessage message c)).
Proof.
  intros (H1 & Hp & Hpend & Ht & Hs & Hsb).
  assert (Fp : ~ In (MCPClient.messageId c) (MCPClient.pendingRequests c))
    by (intros H; apply Hpend in H; lia).
  assert (Fs : ~ In (MCPClient.messageId c) (map fst (MCPClient.settled c)))
    by (intros H; apply Hsb in H; lia).
  unfold client_invariant, MCPClient.sendMCPMessage.
  cbn [snd MCPClient.messageId MCPClient.pendingRequests MCPClient.timers MCPClient.settled].
  rewrite (set_fresh _ _ Fp).
  split; [lia |]. split; [now apply NoDup_snoc |]. split; [| split; [| split]].
  - intros k Hk. apply in_app_or in Hk. destruct Hk as [Hk | [<- | []]].
    + destruct (Hpend k Hk) as (Hb & Hti & Hns).
      split; [lia |]. split; [apply in_or_app; now left | exact Hns].
    + split; [lia |]. split; [apply in_or_app; right; now left | exact Fs].
  - intros k Hk. apply in_app_or in Hk. destruct Hk as [Hk | [<- | []]].
    + apply Ht in Hk. lia.
    + lia.
  - exact Hs.
  - intros k Hk. apply Hsb in Hk. lia.
Qed.

Lemma invariant_bump (c : MCPClient.t) :
  client_invariant c ->
  client_invariant {| MCPClient.messageId := MCPClient.messageId c + 1;
                      MCPClient.pendingRequests := MCPClient.pendingRequests c;
                      MCPClient.stdin := MCPClient.stdin c;
                      MCPClient.timers := MCPClient.timers c;
                      MCPClient.settled := MCPClient.settled c |}.
Proof.
  intros (H1 & Hp & Hpend & Ht & Hs & Hsb). unfold client_invariant.
  cbn [MCPClient.messageId MCPClient.pendingRequests MCPClient.timers MCPClient.settled].
  split; [lia |]. split; [exact Hp |]. split; [| split; [| split]].
  - intros k Hk. destruct (Hpend k Hk) as (Hb & Hti & Hns). repeat split; auto; lia.
  - intros k Hk. apply Ht in Hk. lia.
  - exact Hs.
  - intros k Hk. apply Hsb in Hk. lia.
Qed.

Lemma invariant_settle (c : MCPClient.t) (n : Z) (how : MCPClient.settlement)
  (timers' : list Z) :
  client_invariant c ->
  In n (MCPClient.pendingRequests c) ->
  (forall k, In k (MCPClient.pendingRequests c) -> k <> n -> In k timers') ->
  (forall k, In k timers' -> In k (MCPClient.timers c)) ->
  client_invariant {| MCPClient.messageId := MCPClient.messageId c;
                      MCPClient.pendingRequests :=
                        MCPClient.delete (MCPClient.pendingRequests c) n;
                      MCPClient.stdin := MCPClient.stdin c;
                      MCPClient.timers := timers';
                      MCPClient.settled := (MCPClient.settled c ++ [(n, how)])%list |}.
Proof.
  intros (H1 & Hp & Hpend & Ht & Hs & Hsb) Hn Hkeep Hsub. unfold client_invariant.
  cbn [MCPClient.messageId MCPClient.pendingRequests MCPClient.timers MCPClient.settled].
  destruct (Hpend n Hn) as (Hnb & _ & Hns).
  rewrite map_app. cbn [map fst].
  split; [lia |]. split; [now apply delete_NoDup |]. split; [| split; [| split]].
  - intros k Hk. apply delete_In in Hk. destruct Hk as [Hk Hne].
    destruct (Hpend k Hk) as (Hb & Hti & Hks).
    split; [exact Hb |]. split; [now apply Hkeep |].
    intros H. apply in_app_or in H. destruct H as [H | [H | []]]; [contradiction | congruence].
  - intros k Hk. apply Ht. now apply Hsub.
  - now apply NoDup_snoc.
  - intros k Hk. apply in_app_or in Hk. destruct Hk as [Hk | [<- | []]];
      [now apply Hsb | lia].
Qed.

Lemma invariant_on_timeout (id : Z) (c : MCPClient.t) :
  client_invariant c -> client_invariant (MCPClient.on_timeout id c).
Proof.
  intros Hinv. unfold MCPClient.on_timeout.
  destruct (existsb (Z.eqb id) (MCPClient.timers c)) eqn:T; [| exact Hinv].
  cbn [MCPClient.pendingRequests MCPClient.messageId MCPClient.stdin MCPClient.timers
       MCPClient.settled MCPClient.has].
  destruct (existsb (Z.eqb id) (MCPClient.pendingRequests c)) eqn:P.
  - apply existsb_Zeqb in P.
    apply (invariant_settle c id _ (MCPClient.delete (MCPClient.timers c) id) Hinv P).
    + intros k Hk Hne. apply delete_In. split; [| exact Hne].
      destruct Hinv as (_ & _ & Hpend & _). now apply Hpend.
    + intros k Hk. now apply delete_In in Hk.
  - assert (Np : ~ In id (MCPClient.pendingRequests c)).
    { intros H. apply existsb_Zeqb in H. congruence. }
    destruct Hinv as (H1 & Hp & Hpend & Ht & Hs & Hsb). unfold client_invariant.
    cbn [MCPClient.messageId MCPClient.pendingRequests MCPClient.timers MCPClient.settled].
    split; [exact H1 |]. split; [exact Hp |]. split; [| split; [| split]].
    + intros k Hk. destruct (Hpend k Hk) as (Hb & Hti & Hks).
      split; [exact Hb |]. split; [| exact Hks].
      apply delete_In. split; [exact Hti | congruence].
    + intros k Hk. apply delete_In in Hk. now apply Ht.
    + exact Hs.
    + exact Hsb.
Qed.

Lemma invariant_on_line (JSON_parse : string -> completion value) (line : string)
  (c : MCPClient.t) :
  client_invariant c -> client_invariant (MCPClient.on_line JSON_parse line c).
Proof.
  intros Hinv. unfold MCPClient.on_line.
  destruct (JSON_parse line) as [response | ex]; cbn [cbind]; [| exact Hinv].
  destruct (get response "id") as [id | ex]; cbn [cbind]; [| exact Hinv].
  destruct (MCPClient.has (MCPClient.pendingRequests c) id) eqn:P; [| exact Hinv].
  destruct id as [| | b | n | x | xs | props]; try exact Hinv.
  cbn [MCPClient.has] in P. apply existsb_Zeqb in P.
  apply (invariant_settle c n _ (MCPClient.timers c) Hinv P).
  - intros k Hk _. destruct Hinv as (_ & _ & Hpend & _). now apply Hpend.
  - auto.
Qed.

Lemma invariant_step (JSON_parse : string -> completion value) (c : MCPClient.t)
  (ev : MCPClient.event) :
  client_invariant c -> client_invariant (MCPClient.step JSON_parse c ev).
Proof.
  intros Hinv. destruct ev; cbn [MCPClient.step].
  - apply invariant_sendMCPMessage, Hinv.
  - unfold MCPClient.getAvailableTools. apply invariant_sendMCPMessage, invariant_bump, Hinv.
  - apply invariant_sendMCPMessage, Hinv.
  - apply invariant_on_line, Hinv.
  - apply invariant_on_timeout, Hinv.
Qed.

Lemma invariant_run (JSON_parse : string -> completion value) (evs : list MCPClient.event) :
  client_invariant (MCPClient.run JSON_parse evs).
Proof.
  unfold MCPClient.run.
  assert (G : forall c, client_invariant c ->
                client_invariant (fold_left (MCPClient.step JSON_parse) evs c)).
  { induction evs as [| ev evs IH]; intros c Hc; [exact Hc |].
    cbn [fold_left]. apply IH, invariant_step, Hc. }
  apply G. unfold client_invariant, MCPClient.constructor. cbn.
  repeat split; try constructor; try lia; intros k [].
Qed.

Lemma messageId_step (JSON_parse : string -> completion value) (c : MCPClient.t)
  (ev : MCPClient.event) :
  MCPClient.messageId c <= MCPClient.messageId (MCPClient.step JSON_parse c ev).
Proof.
  destruct ev; cbn [MCPClient.step].
  - cbn. lia.
  - cbn. lia.
  - cbn. lia.
  - unfold MCPClient.on_line.
    destruct (_ <~ JSON_parse line ;; _) as [[response id] | ex]; [| lia].
    destruct (MCPClient.has _ id); [| lia]. destruct id; cbn; lia.
  - unfold MCPClient.on_timeout.
    destruct (existsb _ _); [| lia].
    destruct (MCPClient.has _ _); cbn; lia.
Qed.

Lemma messageId_steps (JSON_parse : string -> completion value)
  (evs : list MCPClient.event) (c : MCPClient.t) :
  MCPClient.messageId c <= MCPClient.messageId (fold_left (MCPClient.step JSON_parse) evs c).
Proof.
  revert c. induction evs as [| ev evs IH]; intros c; cbn [fold_left]; [lia |].
  pose proof (messageId_step JSON_parse c ev). specialize (IH (MCPClient.step JSON_parse c ev)).
  lia.
Qed.

(** X17.  After any sequence of requests, lines from the server and
    timers firing, no request has been settled twice, every pending
    request is pending once, still has its timer and has not been settled,
    and the ids in use lie below the next id. *)
Theorem client_settles_each_request_at_most_once
  (JSON_parse : string -> completion value) (evs : list MCPClient.event) :
  let c := MCPClient.run JSON_parse evs in
  NoDup (map fst (MCPClient.settled c))
  /\ NoDup (MCPClient.pendingRequests c)
  /\ (forall k, In k (MCPClient.pendingRequests c) ->
        1 <= k < MCPClient.messageId c
        /\ In k (MCPClient.timers c)
        /\ ~ In k (map fst (MCPClient.settled c)))
  /\ (forall k, In k (map fst (MCPClient.settled c)) -> k < MCPClient.messageId c).
Proof.
  intros c. destruct (invariant_run JSON_parse evs) as (_ & Hp & Hpend & _ & Hs & Hsb).
  auto.
Qed.

(** X18.  Once a request is settled, nothing settles it again: a further
    line carrying its id leaves the client as it is, and its timer, when
    it fires, changes neither the pending requests nor the settled ones. *)
Theorem settled_request_stays_settled
  (JSON_parse : string -> completion value) (evs : list MCPClient.event)
  (k : Z) (line : string) (response : value) :
  let c := MCPClient.run JSON_parse evs in
  In k (map fst (MCPClient.settled c)) ->
  JSON_parse line = Normal response ->
  get response "id" = Normal (VNum k) ->
  MCPClient.on_line JSON_parse line c = c
  /\ MCPClient.settled (MCPClient.on_timeout k c) = MCPClient.settled c
  /\ MCPClient.pendingRequests (MCPClient.on_timeout k c) = MCPClient.pendingRequests c.
Proof.
  intros c Hk Hparse Hid.
  destruct (invariant_run JSON_parse evs) as (_ & _ & Hpend & _).
  fold c in Hpend.
  assert (N : existsb (Z.eqb k) (MCPClient.pendingRequests c) = false).
  { destruct (existsb (Z.eqb k) (MCPClient.pendingRequests c)) eqn:E; [| reflexivity].
    apply existsb_Zeqb in E. apply Hpend in E. tauto. }
  split; [| split].
  - unfold MCPClient.on_line. rewrite Hparse. cbn [cbind]. rewrite Hid. cbn [cbind].
    cbn [MCPClient.has]. now rewrite N.
  - unfold MCPClient.on_timeout. destruct (existsb (Z.eqb k) (MCPClient.timers c));
      [| reflexivity].
    cbn [MCPClient.pendingRequests MCPClient.has]. now rewrite N.
  - unfold MCPClient.on_timeout. destruct (existsb (Z.eqb k) (MCPClient.timers c));
      [| reflexivity].
    cbn [MCPClient.pendingRequests MCPClient.has]. now rewrite N.
Qed.

Lemma settled_request_stays_settled_witness :
  let evs := [MCPClient.Initialize; MCPClient.Line answer_line] in
  MCPClient.settled (MCPClient.run toy_parse evs) = [(1, MCPClient.Resolved (VObj [("id", VNum 1)]))]
  /\ MCPClient.on_line toy_parse answer_line (MCPClient.run toy_parse evs)
     = MCPClient.run toy_parse evs.
Proof.
  intros evs. split; [reflexivity |].
  exact (proj1 (settled_request_stays_settled toy_parse evs 1 answer_line
                  (VObj [("id", VNum 1)]) (or_introl eq_refl) eq_refl eq_refl)).
Defined.

(** X19.  Request ids are never reused: a request gets the next id, which
    no pending, settled or timed request has, and any request sent later,
    whatever happened in between, gets a greater one.  getAvailableTools
    uses up two ids and sends the second. *)
Theorem request_ids_are_fresh
  (JSON_parse : string -> completion value) (evs later : list MCPClient.event)
  (m1 m2 : list (string * value)) :
  let c := MCPClient.run JSON_parse evs in
  let id1 := fst (MCPClient.sendMCPMessage m1 c) in
  let c1 := snd (MCPClient.sendMCPMessage m1 c) in
  let c2 := fold_left (MCPClient.step JSON_parse) later c1 in
  id1 = MCPClient.messageId c
  /\ ~ In id1 (MCPClient.pendingRequests c)
  /\ ~ In id1 (MCPClient.timers c)
  /\ ~ In id1 (map fst (MCPClient.settled c))
  /\ In id1 (MCPClient.pendingRequests c1)
  /\ id1 < fst (MCPClient.sendMCPMessage m2 c2)
  /\ fst (MCPClient.getAvailableTools c) = MCPClient.messageId c + 1
  /\ MCPClient.messageId (snd (MCPClient.getAvailableTools c)) = MCPClient.messageId c + 2.
Proof.
  intros c id1 c1 c2.
  destruct (invariant_run JSON_parse evs) as (_ & _ & Hpend & Ht & _ & Hsb).
  fold c in Hpend, Ht, Hsb.
  assert (Fp : ~ In (MCPClient.messageId c) (MCPClient.pendingRequests c))
    by (intros H; apply Hpend in H; lia).
  split; [reflexivity |]. split; [exact Fp |].
  split; [intros H; apply Ht in H; unfold id1 in H; cbn in H; lia |].
  split; [intros H; apply Hsb in H; unfold id1 in H; cbn in H; lia |].
  split.
  { unfold c1, id1, MCPClient.sendMCPMessage.
    cbn [fst snd MCPClient.pendingRequests]. rewrite (set_fresh _ _ Fp).
    apply in_or_app. right. now left. }
  split.
  { pose proof (messageId_steps JSON_parse later c1) as M. fold c2 in M.
    unfold id1, c1 in *. cbn in *. lia. }
  split; cbn; lia.
Qed.

(** ** The health tool, the liveness endpoint and the client's probe *)

(** X20.  On an SAPService the health tool sends the one request of the
    connection test and returns the heading [SAP Health Check:] with the
    status [connected] when it is answered and the status [error] with
    [SAP connection failed: ] and the formatted error when it is rejected;
    the text [Health check failed] of its own [catch] is never produced. *)
Theorem sap_health_check_text (s : SAPService.t) (net : network) (tr : trace) :
  snd (SAPMCPServer.sap_health_check_callback (SAPMCPServer.of_SAPService s) tt net tr) =
    (tr ++ [health_probe s])%list
  /\ (forall r, net tr (health_probe s) = Resolve r ->
        fst (SAPMCPServer.sap_health_check_callback (SAPMCPServer.of_SAPService s) tt net tr) =
          Normal (text_result ("SAP Health Check:" ++ nl ++ "Status: connected" ++ nl
                               ++ "Message: Successfully connected to SAP")))
  /\ (forall err, net tr (health_probe s) = Reject err ->
        fst (SAPMCPServer.sap_health_check_callback (SAPMCPServer.of_SAPService s) tt net tr) =
          Normal (text_result ("SAP Health Check:" ++ nl ++ "Status: error" ++ nl
                               ++ "Message: SAP connection failed: "
                               ++ message (rejected (SAPService.axios s) err))))
  /\ (forall m,
        fst (SAPMCPServer.sap_health_check_callback (SAPMCPServer.of_SAPService s) tt net tr) <>
          Normal (text_result ("Health check failed: " ++ m))).
Proof.
  unfold SAPMCPServer.sap_health_check_callback, SAPMCPServer.method.
  cbn [SAPMCPServer.of_SAPService SAPMCPServer.healthCheck].
  unfold SAPService.healthCheck. run_io. fold (health_probe s).
  destruct (net tr (health_probe s)) as [r | err]; cbn.
  - split; [reflexivity |]. split; [reflexivity |]. split; [discriminate |].
    intros m H. discriminate H.
  - split; [reflexivity |]. split; [discriminate |].
    split; [intros err' H; now injection H as <- |].
    intros m H. discriminate H.
Qed.

(** X21.  The liveness endpoint reports [btp_connected: true] whatever the
    platform binds, also with no binding at all, where list_destinations
    answers with the error text of the missing destination service; and
    list_destinations never answers with its text
    [BTP Destination Service not available]. *)
Theorem health_endpoint_always_reports_connected
  (bound : option value) (now : string) (net : network) (tr : trace) :
  opt_get (Endpoints.health (BTP.btpService bound) now) "btp_connected" = VBool true
  /\ fst (BTP.list_destinations_callback (BTP.btpService None) tt net tr) =
       Normal (text_result "❌ Error listing destinations: Destination service not available")
  /\ fst (BTP.list_destinations_callback (BTP.btpService bound) tt net tr) <>
       Normal (text_result
                 "❌ BTP Destination Service not available. Check service binding.").
Proof.
  split; [reflexivity |]. split; [reflexivity |].
  unfold BTP.list_destinations_callback, BTP.btpService, BTP.getAccessToken.
  destruct (negb (truthy (BTP.destinationService (BTP.constructor bound))));
    run_io; [cbn; discriminate |].
  destruct (net tr _) as [r1 | e1]; cbn; [| discriminate].
  destruct (get (data r1) "access_token") as [token | e]; [| cbn; discriminate].
  destruct (net (tr ++ [_])%list _) as [r2 | e2]; cbn; [| discriminate].
  destruct (array_of "response.data" (data r2)) as [rows | e]; [| cbn; discriminate].
  destruct (cmap _ rows) as [destinations | e]; cbn; discriminate.
Qed.

(** X22.  The client's connection test sends one GET of [/api/tags] with a
    timeout of 10000 ms and either returns [true] or throws an Error whose
    message starts with [Cannot connect to Ollama: ].  An answer without
    [models] passes; an answer whose [models] is a non-zero number, though
    it shows the server is reachable, is reported as a connection
    failure. *)
Theorem testOllamaConnection_outcomes (net : network) (tr : trace) :
  snd (MCPClient.testOllamaConnection net tr) = (tr ++ [ollama_probe])%list
  /\ (fst (MCPClient.testOllamaConnection net tr) = Normal true
      \/ exists m, fst (MCPClient.testOllamaConnection net tr) =
                     Throw (Error ("Cannot connect to Ollama: " ++ m)))
  /\ (forall err, net tr ollama_probe = Reject err ->
        fst (MCPClient.testOllamaConnection net tr) =
          Throw (Error ("Cannot connect to Ollama: " ++ error_message err)))
  /\ (forall r props, net tr ollama_probe = Resolve r -> data r = VObj props ->
        own props "models" = VUndefined ->
        fst (MCPClient.testOllamaConnection net tr) = Normal true)
  /\ (forall r props n, net tr ollama_probe = Resolve r -> data r = VObj props ->
        own props "models" = VNum n -> n <> 0 ->
        fst (MCPClient.testOllamaConnection net tr) =
          Throw (Error "Cannot connect to Ollama: models.map is not a function")).
Proof.
  unfold MCPClient.testOllamaConnection. run_io.
  change {| method := "GET"; url := MCPClient.ollamaBaseUrl ++ "/api/tags";
            request_headers := []; form := [];
            Http.client := defaults (MCPClient.with_timeout 10000) |} with ollama_probe.
  destruct (net tr ollama_probe) as [r | err].
  - destruct (get (data r) "models") as [listed | ex] eqn:G.
    + destruct (array_of "models" (logical_or listed (VArr []))) as [rows | ex] eqn:A.
      * destruct (cmap (fun m => get m "name") rows) as [names | ex] eqn:C; cbn [fst snd].
        -- split; [reflexivity |]. split; [now left |]. split; [discriminate |].
           split; [reflexivity |].
           intros r' props n H Hd Hm Hn. injection H as <-.
           rewrite Hd in G. cbn in G. rewrite Hm in G. injection G as <-.
           unfold logical_or in A. cbn in A.
           destruct (Z.eqb_spec n 0); [contradiction | discriminate].
        -- split; [reflexivity |]. split; [right; eauto |]. split; [discriminate |].
           split.
           ++ intros r' props H Hd Hm. injection H as <-.
              rewrite Hd in G. cbn in G. rewrite Hm in G. injection G as <-.
              cbn in A. injection A as <-. discriminate C.
           ++ intros r' props n H Hd Hm Hn. injection H as <-.
              rewrite Hd in G. cbn in G. rewrite Hm in G. injection G as <-.
              unfold logical_or in A. cbn in A.
              destruct (Z.eqb_spec n 0); [contradiction | discriminate].
      * cbn [fst snd]. split; [reflexivity |]. split; [right; eauto |].
        split; [discriminate |]. split.
        -- intros r' props H Hd Hm. injection H as <-.
           rewrite Hd in G. cbn in G. rewrite Hm in G. injection G as <-. discriminate A.
        -- intros r' props n H Hd Hm Hn. injection H as <-.
           rewrite Hd in G. cbn in G. rewrite Hm in G. injection G as <-.
           unfold logical_or in A. cbn in A.
           destruct (Z.eqb_spec n 0); [contradiction |]. cbn in A. now injection A as <-.
    + cbn [fst snd]. split; [reflexivity |]. split; [right; eauto |].
      split; [discriminate |]. split.
      * intros r' props H Hd Hm. injection H as <-. rewrite Hd in G. discriminate G.
      * intros r' props n H Hd Hm Hn. injection H as <-. rewrite Hd in G. discriminate G.
  - cbn [fst snd]. split; [reflexivity |]. split; [right; eauto |].
    split; [intros err' H; now injection H as <- |].
    split; intros; discriminate.
Qed.
